(** * ts-llvm: the code-generation driver and its utilities

    A shallow embedding of the utilities the generator imports from
    [../utils] (replaceExtension, createLLVMFunction, getMemberIndex,
    isValueType) and of [src/codegen/generator.ts] (emitLLVM and the
    LLVMGenerator class), followed by the properties of the specification
    that concern them. *)

From Stdlib Require Import ZArith Lia Bool Ascii String.
From stdpp Require Import base option list strings.

Set Warnings "-register-all".

(** ** JavaScript strings and the regular expressions the sources use *)

Module JsString.

(** A string is a sequence of characters. The one pattern of the sources
    tells the dot, the slash and the backslash from every other character,
    so how the other characters are encoded makes no difference to it. *)

(** An atom consumes exactly one character: a literal such as [\.] or a
    negated class such as [[^\.\/\\]]. *)
Inductive Atom :=
| Literal (c : ascii)
| NoneOf (cs : list ascii).

(** The pieces a pattern is written with: one atom, an atom under the greedy
    [+] quantifier, and the assertion [$] (without the [m] flag: end of
    input). *)
Inductive Term :=
| Once (a : Atom)
| Plus (a : Atom)
| EndOfInput.

Definition RegExp := list Term.

Definition ascii_mem (c : ascii) (cs : list ascii) : bool :=
  existsb (Ascii.eqb c) cs.

Definition atomMatches (a : Atom) (c : ascii) : bool :=
  match a with
  | Literal d => Ascii.eqb c d
  | NoneOf cs => negb (ascii_mem c cs)
  end.

(** [a+] followed by the continuation [k]: greedy, so one more repetition is
    tried before the continuation; backtracking gives a repetition back. *)
Fixpoint matchPlus (a : Atom) (k : string -> option string) (s : string)
  : option string :=
  match s with
  | EmptyString => None
  | String c rest =>
      if atomMatches a c then
        match matchPlus a k rest with
        | Some r => Some r
        | None => k rest
        end
      else None
  end.

(** A match of the whole pattern anchored at the start of [s]; the result is
    the input left after the matched text. *)
Fixpoint matchHere (re : RegExp) (s : string) : option string :=
  match re with
  | [] => Some s
  | Once a :: re' =>
      match s with
      | String c rest => if atomMatches a c then matchHere re' rest else None
      | EmptyString => None
      end
  | Plus a :: re' => matchPlus a (matchHere re') s
  | EndOfInput :: re' =>
      match s with
      | EmptyString => matchHere re' s
      | String _ _ => None
      end
  end.

(** [String.prototype.replace] with a pattern that has no [g] flag: the
    leftmost match is replaced, and the string is returned as it is when no
    position matches. Start positions run from 0 to the length included. *)
Fixpoint replace (re : RegExp) (replacement : string) (s : string) : string :=
  match matchHere re s with
  | Some rest => replacement +:+ rest
  | None =>
      match s with
      | EmptyString => EmptyString
      | String c s' => String c (replace re replacement s')
      end
  end.

Fixpoint string_existsb (p : ascii -> bool) (s : string) : bool :=
  match s with
  | EmptyString => false
  | String c s' => p c || string_existsb p s'
  end.

Fixpoint string_forallb (p : ascii -> bool) (s : string) : bool :=
  match s with
  | EmptyString => true
  | String c s' => p c && string_forallb p s'
  end.

End JsString.

(** ** The part of llvm-node the sources use *)

Module LLVM.

(** [llvm.Type]. Types are structural here, so the [LLVMContext] that owns
    them carries no state. *)
Inductive LType :=
| VoidTy
| DoubleTy
| FloatTy
| IntegerTy (bits : N)
| PointerTy (pointee : LType)
| StructTy (name : string)
| ArrayTy (element : LType) (count : N)
| FunctionTy (returnType : LType) (parameterTypes : list LType) (isVarArg : bool).

Definition isDoubleTy (t : LType) : bool :=
  match t with DoubleTy => true | _ => false end.

Definition isPointerTy (t : LType) : bool :=
  match t with PointerTy _ => true | _ => false end.

(** [type.elementType], a property of pointer types only. *)
Definition elementType (t : LType) : option LType :=
  match t with PointerTy e => Some e | _ => None end.

Definition getInt32Ty : LType := IntegerTy 32.

(** [llvm.Value] with the subclasses the sources name ([AllocaInst], the
    load and return instructions the builder creates, null constants) and
    one constructor each for the remaining constants, arguments and
    instructions. *)
Inductive Value :=
| ConstantNull (ty : LType)
| Constant (ty : LType) (repr : string)
| Argument (ty : LType) (index : nat)
| AllocaInst (allocatedType : LType) (name : string)
| LoadInst (pointer : Value)
| ReturnInst (operand : option Value)
| Instruction (opcode : string) (ty : LType) (operands : list Value).

Definition getNullValue (t : LType) : Value := ConstantNull t.

(** [value.type]. An alloca is the address of what it allocates; a load has
    the pointee type of its operand. *)
Fixpoint valueType (v : Value) : LType :=
  match v with
  | ConstantNull t | Constant t _ | Argument t _ | Instruction _ t _ => t
  | AllocaInst t _ => PointerTy t
  | LoadInst p => default VoidTy (elementType (valueType p))
  | ReturnInst _ => VoidTy
  end.

(** [value instanceof llvm.AllocaInst]. *)
Definition instanceofAllocaInst (v : Value) : bool :=
  match v with AllocaInst _ _ => true | _ => false end.

Record BasicBlock := mkBasicBlock {
  blockName : string;
  instructions : list Value
}.

Inductive LinkageTypes := ExternalLinkage | InternalLinkage.

Record Function := mkFunction {
  functionName : string;
  functionType : LType;
  linkage : LinkageTypes;
  getBasicBlocks : list BasicBlock
}.

Record Module := mkModule {
  moduleName : string;
  functions : list Function
}.

(** Objects of llvm-node are handles: a function is named by its position in
    the module's function list and a block by its position in its parent. *)
Abbreviation FunctionRef := nat.

Record BlockRef := mkBlockRef {
  parent : FunctionRef;
  position : nat
}.

(** [module.getFunction(name)]: the function that holds this name, or
    undefined. *)
Definition getFunction (name : string) (m : Module) : option FunctionRef :=
  fst <$> list_find (fun f => functionName f = name) (functions m).

Definition blocksOf (f : FunctionRef) (m : Module) : list BasicBlock :=
  default [] (getBasicBlocks <$> functions m !! f).

(** The handle of the last block of function [f], as [R.last] returns it from
    [f.getBasicBlocks()]; undefined for a function without blocks. *)
Definition lastBlock (f : FunctionRef) (m : Module) : option BlockRef :=
  match length (blocksOf f m) with
  | O => None
  | S n => Some (mkBlockRef f n)
  end.

(** [llvm.Function.create(type, linkage, name, module)]: the function is
    added at the end of the module. When the name is taken, LLVM keeps it
    with its first holder, which is the function [getFunction] finds here;
    the suffix LLVM gives the newcomer's name is not modelled. *)
Definition Function_create (type : LType) (link : LinkageTypes) (name : string)
  (m : Module) : FunctionRef * Module :=
  (length (functions m),
   mkModule (moduleName m) (functions m ++ [mkFunction name type link []])).

Definition addBlock (name : string) (fn : Function) : Function :=
  mkFunction (functionName fn) (functionType fn) (linkage fn)
             (getBasicBlocks fn ++ [mkBasicBlock name []]).

(** [llvm.BasicBlock.create(context, name, parent)]: the block is added at
    the end of its parent. *)
Definition BasicBlock_create (name : string) (f : FunctionRef) (m : Module)
  : BlockRef * Module :=
  (mkBlockRef f (length (blocksOf f m)),
   mkModule (moduleName m) (alter (addBlock name) f (functions m))).

Definition addInstruction (i : Value) (b : BasicBlock) : BasicBlock :=
  mkBasicBlock (blockName b) (instructions b ++ [i]).

Definition alterBlocks (g : list BasicBlock -> list BasicBlock) (fn : Function)
  : Function :=
  mkFunction (functionName fn) (functionType fn) (linkage fn)
             (g (getBasicBlocks fn)).

(** Appending an instruction to the block a handle names. *)
Definition insertAtEnd (b : BlockRef) (i : Value) (m : Module) : Module :=
  mkModule (moduleName m)
    (alter (alterBlocks (alter (addInstruction i) (position b))) (parent b)
           (functions m)).

(** The instructions of the block a handle names. *)
Definition instructionsAt (b : BlockRef) (m : Module) : option (list Value) :=
  match functions m !! parent b with
  | Some fn => instructions <$> getBasicBlocks fn !! position b
  | None => None
  end.

(** [llvm.IRBuilder]: its state is the insertion point. The sources only set
    it with [setInsertionPoint(block)], which places it at the end of the
    block. *)
Record IRBuilder := mkIRBuilder {
  getInsertBlock : option BlockRef
}.

(** What the builder does with an instruction it has created: it is inserted
    at the insertion point; a builder without insertion point leaves it
    detached. *)
Definition insert (b : IRBuilder) (i : Value) (m : Module) : Module :=
  match getInsertBlock b with
  | Some blk => insertAtEnd blk i m
  | None => m
  end.

End LLVM.

(** ** The part of the TypeScript compiler API the sources use *)

Module TS.

(** [ts.SyntaxKind]: the members the sources name, and [OtherKind] for every
    other member of the enumeration, by its numeric value. *)
Inductive SyntaxKind :=
| FunctionDeclaration | MethodDeclaration | Constructor | ClassDeclaration
| ModuleDeclaration | Block | ExpressionStatement | IfStatement
| ReturnStatement | VariableStatement | EndOfFileToken | InterfaceDeclaration
| BinaryExpression | CallExpression | PropertyAccessExpression | Identifier
| TrueKeyword | FalseKeyword | NumericLiteral | StringLiteral
| ObjectLiteralExpression | NewExpression
| OtherKind (code : N).

(** [ts.Node]: its kind, its source text ([getText()]) and the children
    [forEachChild] visits, in order. *)
Inductive Node := mkNode {
  kind : SyntaxKind;
  getText : string;
  children : list Node
}.

(** A source file is a node; its children are its top-level statements
    followed by the end-of-file token. *)
Definition SourceFile := Node.

(** [ts.ClassElement]: the members of a class body. A member that has a name
    carries the text of that name ([member.name.getText()]). *)
Inductive ClassElement :=
| PropertyMember (name : string)
| MethodMember (name : string)
| ConstructorMember
| GetAccessorMember (name : string)
| SetAccessorMember (name : string)
| IndexSignatureMember
| SemicolonMember.

(** [ts.isPropertyDeclaration]. *)
Definition isPropertyDeclaration (m : ClassElement) : bool :=
  match m with PropertyMember _ => true | _ => false end.

(** [ts.ClassDeclaration]: the name is optional (a default export may be
    anonymous). *)
Record ClassDeclarationNode := mkClassDeclaration {
  className : option string;
  members : list ClassElement
}.

End TS.

(** ** The diagnostics channel *)

Module Diagnostics.

(** How a call ends when it does not return: a fatal diagnostic, a
    JavaScript [TypeError] (a property of undefined was read, or llvm-node
    refused an argument), the exception llvm-node raises for a module that
    does not verify, or a [RangeError] when the call stack is exhausted. *)
Inductive Failure :=
| FatalError (message : string)
| TypeError
| VerifierError (report : string)
| RangeError.

Inductive Result (A : Type) :=
| Returned (a : A)
| Thrown (e : Failure).
Arguments Returned {A} a.
Arguments Thrown {A} e.

(** Modelled from the spec: [error] of src/diagnostics.ts, which is not among
    the sources. It is the fatal severity of the diagnostics channel: it
    never returns and aborts the compilation attempt with its message. *)
Definition error {A} (message : string) : Result A :=
  Thrown (FatalError message).

End Diagnostics.

(** ** utils.ts *)

Module Utils.
Import JsString LLVM TS Diagnostics.

(** The pattern [/\.[^\.\/\\]+$/]. *)
Definition extensionPattern : RegExp :=
  [ Once (Literal ".");
    Plus (NoneOf ["."; "/"; "\"]%char);
    EndOfInput ].

Definition replaceExtension (filePath extension : string) : string :=
  replace extensionPattern EmptyString filePath +:+ extension.

Definition createLLVMFunction (returnType : LType) (parameterTypes : list LType)
  (name : string) (module : Module) : FunctionRef * Module :=
  let type := FunctionTy returnType parameterTypes false in
  let linkage := ExternalLinkage in
  Function_create type linkage name module.

(** [Array.prototype.findIndex]: the position of the first element that
    satisfies the predicate, -1 when there is none. *)
Fixpoint findIndex {A} (p : A -> bool) (l : list A) : Z :=
  match l with
  | [] => (-1)%Z
  | x :: l' =>
      if p x then 0%Z
      else let i := findIndex p l' in
           if (i <? 0)%Z then (-1)%Z else (i + 1)%Z
  end.

(** The callback of [getMemberIndex]; [&&] reads the name of property
    declarations only. *)
Definition isFieldNamed (name : string) (member : ClassElement) : bool :=
  isPropertyDeclaration member &&
  match member with
  | PropertyMember n => String.eqb n name
  | _ => false
  end.

Definition getMemberIndex (name : string) (declaration : ClassDeclarationNode)
  : Result Z :=
  let index := findIndex (isFieldNamed name) (members declaration) in
  if (index <? 0)%Z then
    match className declaration with
    | Some text =>
        error ("Type '" +:+ text +:+ "' has no field '" +:+ name +:+ "'")
    | None => Thrown TypeError
    end
  else Returned index.

Definition isValueType (type : LType) : bool := isDoubleTy type.

(** Vocabulary of the statements about paths. *)
Definition isSeparator (c : ascii) : bool :=
  Ascii.eqb c "/" || Ascii.eqb c "\".

Definition isDot (c : ascii) : bool := Ascii.eqb c ".".

(** A character an extension may consist of: no dot and no separator. *)
Definition isExtensionChar (c : ascii) : bool :=
  negb (isDot c) && negb (isSeparator c).

(** The part of a path after its last separator. *)
Fixpoint finalSegment (s : string) : string :=
  match s with
  | EmptyString => EmptyString
  | String c s' =>
      if string_existsb isSeparator s' then finalSegment s'
      else if isSeparator c then s' else String c s'
  end.

(** The part of a path up to its last separator, which it includes. *)
Fixpoint directoryPart (s : string) : string :=
  match s with
  | EmptyString => EmptyString
  | String c s' =>
      if string_existsb isSeparator s' then String c (directoryPart s')
      else if isSeparator c then String c EmptyString else EmptyString
  end.

(** A dot-suffix: a dot followed by one or more extension characters. *)
Definition isDotSuffix (s : string) : bool :=
  match s with
  | EmptyString => false
  | String c t =>
      isDot c &&
      match t with
      | EmptyString => false
      | String _ _ => string_forallb isExtensionChar t
      end
  end.

(** Vocabulary of the statements about class layouts: the names of the
    property-kind members, in declaration order. *)
Definition fieldNames (ms : list ClassElement) : list string :=
  omap (fun m => match m with PropertyMember n => Some n | _ => None end) ms.

(** The position of a field in the list of field names, -1 when the list
    does not hold it. *)
Definition fieldPosition (name : string) (ms : list ClassElement) : Z :=
  findIndex (fun n => String.eqb n name) (fieldNames ms).

(** How many of the first [n] members of a class body are not property
    declarations. *)
Definition nonFieldsBefore (n : nat) (ms : list ClassElement) : nat :=
  length (filter (fun m => isPropertyDeclaration m = false) (take n ms)).

End Utils.

(** ** codegen/generator.ts *)

Module Codegen.
Import LLVM TS Diagnostics Utils.

(** What the generator takes from modules that are not part of the sources
    and from its libraries: the type checker of the TypeScript program, the
    scopes and the symbol table of src/symbol-table.ts ([===] on scopes is
    identity of objects, hence decidable equality), the reverse mapping
    [ts.SyntaxKind[kind]], and the verifier of LLVM. llvm-node's
    [verifyModule] returns nothing for a module that verifies and raises an
    exception carrying the verifier's report otherwise; [verifyModule m] is
    that report. *)
Class Host := {
  TypeChecker : Type;
  Scope : Type;
  Scope_eq_dec :: EqDecision Scope;
  SymbolTable : Type;
  newSymbolTable : SymbolTable;
  globalScope : SymbolTable -> Scope;
  syntaxKindName : SyntaxKind -> string;
  verifyModule : Module -> option string
}.

Section Generator.
Context `{Host}.

(** [ts.Program]. *)
Record Program := mkProgram {
  getTypeChecker : TypeChecker;
  getSourceFiles : list SourceFile
}.

(** The fields of an [LLVMGenerator], together with the notices the
    diagnostics channel has received so far. *)
Record GeneratorState := mkState {
  checker : TypeChecker;
  module : Module;
  builder : IRBuilder;
  symbolTable : SymbolTable;
  notices : list string
}.

(** Code that runs against a generator: it reads and updates the generator's
    fields and either returns or throws. *)
Definition Gen (A : Type) : Type :=
  GeneratorState -> Result (A * GeneratorState).

Definition ret {A} (a : A) : Gen A := fun s => Returned (a, s).

Definition bind {A B} (c : Gen A) (k : A -> Gen B) : Gen B :=
  fun s =>
    match c s with
    | Returned (a, s') => k a s'
    | Thrown e => Thrown e
    end.

Definition throw {A} (e : Failure) : Gen A := fun _ => Thrown e.

Definition getState : Gen GeneratorState := fun s => Returned (s, s).

Definition setModule (m : Module) : Gen unit :=
  fun s => Returned (tt, mkState (checker s) m (builder s) (symbolTable s) (notices s)).

Definition setBuilder (b : IRBuilder) : Gen unit :=
  fun s => Returned (tt, mkState (checker s) (module s) b (symbolTable s) (notices s)).

End Generator.

Declare Scope gen_scope.
Delimit Scope gen_scope with gen.
Notation "'let*' x ':=' c 'in' k" := (bind c (fun x => k))
  (at level 10, x name, c at level 100, k at level 200) : gen_scope.
Notation "c ';;' k" := (bind c (fun _ => k))
  (at level 100, k at level 200, right associativity) : gen_scope.

Section Generator.
Context `{Host}.
Local Open Scope gen_scope.

(** [for (const x of xs) body(x)], and [forEachChild] with a callback that
    returns undefined. *)
Fixpoint forEach {A} (body : A -> Gen unit) (xs : list A) : Gen unit :=
  match xs with
  | [] => ret tt
  | x :: xs' => body x ;; forEach body xs'
  end.

(** Modelled from the spec: [warn] of src/diagnostics.ts, which is not among
    the sources. It is the non-fatal severity of the diagnostics channel: the
    notice is handed over and compilation continues. *)
Definition warn (message : string) : Gen unit :=
  fun s => Returned (tt, mkState (checker s) (module s) (builder s)
                                 (symbolTable s) (notices s ++ [message])).

(** [builder.setInsertionPoint(block)]; llvm-node refuses undefined. *)
Definition setInsertionPoint (block : option BlockRef) : Gen unit :=
  match block with
  | Some b => setBuilder (mkIRBuilder (Some b))
  | None => throw TypeError
  end.

Definition createInstruction (i : Value) : Gen Value :=
  let* s := getState in
  setModule (insert (builder s) i (module s)) ;;
  ret i.

Definition createLoad (pointer : Value) : Gen Value :=
  createInstruction (LoadInst pointer).

Definition createRet (value : Value) : Gen Value :=
  createInstruction (ReturnInst (Some value)).

(** The methods through which the imported emitters call back into the
    generator they are handed. *)
Record LLVMGenerator := mkGenerator {
  callEmitNode : Node -> Scope -> Gen unit;
  callEmitExpression : Node -> Gen Value
}.

(** The emitters of codegen/declaration.ts, codegen/expression.ts and
    codegen/statement.ts, none of which is among the sources. Each receives
    its node, the parent scope where the generator passes one, and the
    generator. *)
Class Emitters := {
  emitClassDeclaration : Node -> Scope -> LLVMGenerator -> Gen unit;
  emitFunctionDeclaration : Node -> Scope -> LLVMGenerator -> Gen unit;
  emitModuleDeclaration : Node -> Scope -> LLVMGenerator -> Gen unit;
  emitBinaryExpression : Node -> LLVMGenerator -> Gen Value;
  emitBooleanLiteral : Node -> LLVMGenerator -> Gen Value;
  emitCallExpression : Node -> LLVMGenerator -> Gen Value;
  emitIdentifier : Node -> LLVMGenerator -> Gen Value;
  emitNewExpression : Node -> LLVMGenerator -> Gen Value;
  emitNumericLiteral : Node -> LLVMGenerator -> Gen Value;
  emitObjectLiteralExpression : Node -> LLVMGenerator -> Gen Value;
  emitPropertyAccessExpression : Node -> LLVMGenerator -> Gen Value;
  emitStringLiteral : Node -> LLVMGenerator -> Gen Value;
  emitBlock : Node -> LLVMGenerator -> Gen unit;
  emitExpressionStatement : Node -> LLVMGenerator -> Gen unit;
  emitIfStatement : Node -> Scope -> LLVMGenerator -> Gen unit;
  emitReturnStatement : Node -> LLVMGenerator -> Gen unit;
  emitVariableStatement : Node -> Scope -> LLVMGenerator -> Gen unit
}.

Context `{Emitters}.

(** The statement of [emitNode]'s first switch, in its only non-empty case:
    [this.builder.setInsertionPoint(R.last(this.module.getFunction("main")
    .getBasicBlocks())!)]. Reading the blocks of undefined is a TypeError. *)
Definition setInsertionPointToMain : Gen unit :=
  let* s := getState in
  match getFunction "main" (module s) with
  | Some main => setInsertionPoint (lastBlock main (module s))
  | None => throw TypeError
  end.

Definition emitNode (this : LLVMGenerator) (node : Node) (parentScope : Scope)
  : Gen unit :=
  match kind node with
  | Block | ExpressionStatement | IfStatement | ReturnStatement
  | VariableStatement =>
      let* s := getState in
      if decide (parentScope = globalScope (symbolTable s))
      then setInsertionPointToMain
      else ret tt
  | _ => ret tt
  end ;;
  match kind node with
  | FunctionDeclaration => emitFunctionDeclaration node parentScope this
  | MethodDeclaration => emitFunctionDeclaration node parentScope this
  | Constructor => emitFunctionDeclaration node parentScope this
  | ClassDeclaration => emitClassDeclaration node parentScope this
  | ModuleDeclaration => emitModuleDeclaration node parentScope this
  | Block => emitBlock node this
  | ExpressionStatement => emitExpressionStatement node this
  | IfStatement => emitIfStatement node parentScope this
  | ReturnStatement => emitReturnStatement node this
  | VariableStatement => emitVariableStatement node parentScope this
  | EndOfFileToken | InterfaceDeclaration => ret tt
  | _ =>
      warn ("Unhandled ts.Node '" +:+ syntaxKindName (kind node) +:+ "': "
            +:+ getText node)
  end.

Definition emitExpression (this : LLVMGenerator) (expression : Node)
  : Gen Value :=
  match kind expression with
  | BinaryExpression => emitBinaryExpression expression this
  | CallExpression => emitCallExpression expression this
  | PropertyAccessExpression => emitPropertyAccessExpression expression this
  | Identifier => emitIdentifier expression this
  | TrueKeyword | FalseKeyword => emitBooleanLiteral expression this
  | NumericLiteral => emitNumericLiteral expression this
  | StringLiteral => emitStringLiteral expression this
  | ObjectLiteralExpression => emitObjectLiteralExpression expression this
  | NewExpression => emitNewExpression expression this
  | _ =>
      fun _ => error ("Unhandled ts.Expression '"
                      +:+ syntaxKindName (kind expression) +:+ "'")
  end.

Definition emitSourceFile (this : LLVMGenerator) (sourceFile : SourceFile)
  : Gen unit :=
  forEach (fun node =>
             let* s := getState in
             callEmitNode this node (globalScope (symbolTable s)))
          (children sourceFile).

Definition createLoadIfAllocaOrPointerToValueType (value : Value) : Gen Value :=
  if instanceofAllocaInst value
     || (isPointerTy (valueType value)
         && from_option isValueType false (elementType (valueType value)))
  then createLoad value
  else ret value.

(** The getter [currentFunction]: the parent of the builder's insert block;
    there is none to read when the builder has no insertion point. *)
Definition currentFunction : Gen FunctionRef :=
  let* s := getState in
  match getInsertBlock (builder s) with
  | Some b => ret (parent b)
  | None => throw TypeError
  end.

(** The generator object: a call of one of its methods takes a frame of the
    call stack, of which [depth] are left. *)
Fixpoint newLLVMGenerator (depth : nat) : LLVMGenerator :=
  match depth with
  | O => mkGenerator (fun _ _ => throw RangeError) (fun _ => throw RangeError)
  | S d => mkGenerator (emitNode (newLLVMGenerator d))
                       (emitExpression (newLLVMGenerator d))
  end.

(** The state of the generator [emitLLVM] constructs: a module named "main",
    a builder without insertion point, a new symbol table. *)
Definition initialState (program : Program) : GeneratorState :=
  mkState (getTypeChecker program) (mkModule "main" [])
          (mkIRBuilder None) newSymbolTable [].

Definition emitLLVM (depth : nat) (program : Program) : Result Module :=
  let generator := newLLVMGenerator depth in
  let run : Gen Module :=
    let mainReturnType := getInt32Ty in
    let* s := getState in
    let (main, m1) := createLLVMFunction mainReturnType [] "main" (module s) in
    setModule (snd (BasicBlock_create "entry" main m1)) ;;
    forEach (emitSourceFile generator) (getSourceFiles program) ;;
    (let* s := getState in
     setInsertionPoint (lastBlock main (module s))) ;;
    createRet (getNullValue mainReturnType) ;;
    let* s := getState in
    match verifyModule (module s) with
    | Some report => throw (VerifierError report)
    | None => ret (module s)
    end
  in
  match run (initialState program) with
  | Returned (m, _) => Returned m
  | Thrown e => Thrown e
  end.

End Generator.

(** *** Vocabulary of the statements about dispatch *)

(** The kinds of the first switch of [emitNode]. *)
Definition isStatementKind (k : SyntaxKind) : bool :=
  match k with
  | Block | ExpressionStatement | IfStatement | ReturnStatement
  | VariableStatement => true
  | _ => false
  end.

(** The kinds [emitNode] hands to an emitter. *)
Definition isEmittedKind (k : SyntaxKind) : bool :=
  match k with
  | FunctionDeclaration | MethodDeclaration | Constructor | ClassDeclaration
  | ModuleDeclaration | Block | ExpressionStatement | IfStatement
  | ReturnStatement | VariableStatement => true
  | _ => false
  end.

Definition isSilentKind (k : SyntaxKind) : bool :=
  match k with
  | EndOfFileToken | InterfaceDeclaration => true
  | _ => false
  end.

(** The kinds [emitExpression] hands to an emitter. *)
Definition isExpressionKind (k : SyntaxKind) : bool :=
  match k with
  | BinaryExpression | CallExpression | PropertyAccessExpression | Identifier
  | TrueKeyword | FalseKeyword | NumericLiteral | StringLiteral
  | ObjectLiteralExpression | NewExpression => true
  | _ => false
  end.

Section Vocabulary.
Context `{Host}.

(** The generator's state with one more notice received. *)
Definition noticed (message : string) (s : GeneratorState) : GeneratorState :=
  mkState (checker s) (module s) (builder s) (symbolTable s)
          (notices s ++ [message]).

(** The generator's state with the insertion point at the end of [b]. *)
Definition positionedAt (b : BlockRef) (s : GeneratorState) : GeneratorState :=
  mkState (checker s) (module s) (mkIRBuilder (Some b)) (symbolTable s)
          (notices s).

(** The generator's state after the builder has created instruction [i]. *)
Definition withInstruction (i : Value) (s : GeneratorState) : GeneratorState :=
  mkState (checker s) (insert (builder s) i (module s)) (builder s)
          (symbolTable s) (notices s).

(** The top-level nodes of a program: the children of its source files, in
    the order of the files. *)
Definition topLevelNodes (program : Program) : list Node :=
  concat (map children (getSourceFiles program)).

(** The handle of the entry function: the first function of the module. *)
Definition entryFunction : FunctionRef := 0.

Definition entryFunctionType : LType := FunctionTy (IntegerTy 32) [] false.

(** The generator's state when [emitLLVM] starts on the source files: the
    module holds the entry function with its one open block. *)
Definition entryState (program : Program) : GeneratorState :=
  mkState (getTypeChecker program)
          (mkModule "main"
             [mkFunction "main" entryFunctionType ExternalLinkage
                         [mkBasicBlock "entry" []]])
          (mkIRBuilder None) newSymbolTable [].

(** The return [emitLLVM] appends. *)
Definition successReturn : Value := ReturnInst (Some (ConstantNull (IntegerTy 32))).

(** A value that is the address of a location whose type is a value type. *)
Definition isValueTypedAddress (v : Value) : bool :=
  match valueType v with
  | PointerTy t => isValueType t
  | _ => false
  end.

(** A value that is the address of a location whose type is not a value
    type. *)
Definition isReferenceTypedAddress (v : Value) : bool :=
  match valueType v with
  | PointerTy t => negb (isValueType t)
  | _ => false
  end.

End Vocabulary.

Section DispatchVocabulary.
Context `{Host} `{!Emitters}.
Local Open Scope gen_scope.

(** The emitter [emitNode] hands a statement-kind node to. *)
Definition statementEmitter (this : LLVMGenerator) (node : Node)
  (parentScope : Scope) : Gen unit :=
  match kind node with
  | Block => emitBlock node this
  | ExpressionStatement => emitExpressionStatement node this
  | IfStatement => emitIfStatement node parentScope this
  | ReturnStatement => emitReturnStatement node this
  | VariableStatement => emitVariableStatement node parentScope this
  | _ => ret tt
  end.

(** What [emitSourceFile] does with one child of a source file, for the
    generator with [depth] frames left. *)
Definition emitTopLevel (depth : nat) (node : Node) : Gen unit :=
  let* s := getState in
  callEmitNode (newLLVMGenerator depth) node (globalScope (symbolTable s)).

(** The notice of [emitNode] and the diagnostic of [emitExpression] for a
    kind they do not handle. *)
Definition unhandledNodeNotice (node : Node) : string :=
  "Unhandled ts.Node '" +:+ syntaxKindName (kind node) +:+ "': " +:+ getText node.

Definition unhandledExpressionMessage (expression : Node) : string :=
  "Unhandled ts.Expression '" +:+ syntaxKindName (kind expression) +:+ "'".

(** Emitters of straight-line code: a variable statement and an expression
    statement create the instructions [code] gives for the node, one after
    the other, and do nothing else. *)
Definition createAll (created : list Value) (s : GeneratorState)
  : GeneratorState :=
  fold_left (fun s' i => withInstruction i s') created s.

Definition emitsStraightLine (code : Node -> list Value) : Prop :=
  forall node parentScope this s,
    emitVariableStatement node parentScope this s
    = Returned (tt, createAll (code node) s) /\
    emitExpressionStatement node this s
    = Returned (tt, createAll (code node) s).

Definition isStraightLineKind (k : SyntaxKind) : bool :=
  match k with
  | VariableStatement | ExpressionStatement | EndOfFileToken
  | InterfaceDeclaration => true
  | _ => false
  end.

(** The code of the statements among [nodes], in the order of [nodes]. *)
Definition codeOf (code : Node -> list Value) (nodes : list Node) : list Value :=
  concat (map code (filter (fun n => isStatementKind (kind n) = true) nodes)).

(** A module that holds the entry function only, its one block holding
    [body]. *)
Definition entryOnly (body : list Value) : Module :=
  mkModule "main"
    [mkFunction "main" entryFunctionType ExternalLinkage
                [mkBasicBlock "entry" body]].

End DispatchVocabulary.

End Codegen.

(** ** A small host and small emitters

    The properties below hold for every host and for every implementation of
    the imported emitters. To run the generator on concrete programs, this
    module fixes one of each: scopes are numbered (0 is the global scope),
    statements emit one instruction that carries their text, compound nodes
    emit their children through the generator, and the verifier asks every
    block to end in its only terminator. *)

Module Sample.
Import LLVM TS Diagnostics Utils Codegen.

Definition kindName (k : SyntaxKind) : string :=
  match k with
  | FunctionDeclaration => "FunctionDeclaration"
  | MethodDeclaration => "MethodDeclaration"
  | Constructor => "Constructor"
  | ClassDeclaration => "ClassDeclaration"
  | ModuleDeclaration => "ModuleDeclaration"
  | Block => "Block"
  | ExpressionStatement => "ExpressionStatement"
  | IfStatement => "IfStatement"
  | ReturnStatement => "ReturnStatement"
  | VariableStatement => "VariableStatement"
  | EndOfFileToken => "EndOfFileToken"
  | InterfaceDeclaration => "InterfaceDeclaration"
  | BinaryExpression => "BinaryExpression"
  | CallExpression => "CallExpression"
  | PropertyAccessExpression => "PropertyAccessExpression"
  | Identifier => "Identifier"
  | TrueKeyword => "TrueKeyword"
  | FalseKeyword => "FalseKeyword"
  | NumericLiteral => "NumericLiteral"
  | StringLiteral => "StringLiteral"
  | ObjectLiteralExpression => "ObjectLiteralExpression"
  | NewExpression => "NewExpression"
  | OtherKind _ => "Unknown"
  end.

Definition isTerminator (v : Value) : bool :=
  match v with ReturnInst _ => true | _ => false end.

Definition blockVerifies (b : BasicBlock) : bool :=
  match reverse (instructions b) with
  | [] => false
  | t :: before => isTerminator t && forallb (fun i => negb (isTerminator i)) before
  end.

Definition verify (m : Module) : option string :=
  if forallb (fun f => forallb blockVerifies (getBasicBlocks f)) (functions m)
  then None
  else Some "a block does not end in its only terminator".

#[export] Instance host : Host := {|
  TypeChecker := unit;
  Scope := nat;
  SymbolTable := unit;
  newSymbolTable := tt;
  globalScope := fun _ => 0;
  syntaxKindName := kindName;
  verifyModule := verify
|}.

Local Open Scope gen_scope.

Definition emitStraightLine (node : Node) : Gen unit :=
  createInstruction (Instruction (getText node) VoidTy []) ;; ret tt.

Definition emitChildren (scope : nat) (node : Node) (this : LLVMGenerator)
  : Gen unit :=
  forEach (fun child => callEmitNode this child scope) (children node).

Definition emitFunction (node : Node) (this : LLVMGenerator) : Gen unit :=
  let* s := getState in
  let (f, m1) := createLLVMFunction VoidTy [] (getText node) (module s) in
  let (b, m2) := BasicBlock_create "entry" f m1 in
  setModule m2 ;;
  setInsertionPoint (Some b) ;;
  emitChildren 1 node this ;;
  createInstruction (ReturnInst None) ;; ret tt.

Definition emitConstant (node : Node) : Gen Value :=
  ret (Constant DoubleTy (getText node)).

#[export] Instance emitters : Emitters := {|
  emitClassDeclaration := fun node _ this => emitChildren 2 node this;
  emitFunctionDeclaration := fun node _ this => emitFunction node this;
  emitModuleDeclaration := fun node _ this => emitChildren 3 node this;
  emitBinaryExpression := fun node _ => emitConstant node;
  emitBooleanLiteral := fun node _ => emitConstant node;
  emitCallExpression := fun node _ => emitConstant node;
  emitIdentifier := fun node _ => emitConstant node;
  emitNewExpression := fun node _ => emitConstant node;
  emitNumericLiteral := fun node _ => emitConstant node;
  emitObjectLiteralExpression := fun node _ => emitConstant node;
  emitPropertyAccessExpression := fun node _ => emitConstant node;
  emitStringLiteral := fun node _ => emitConstant node;
  emitBlock := fun node this => emitChildren 4 node this;
  emitExpressionStatement := fun node _ => emitStraightLine node;
  emitIfStatement := fun node scope this => emitChildren scope node this;
  emitReturnStatement := fun node _ =>
    createInstruction (ReturnInst None) ;; ret tt;
  emitVariableStatement := fun node _ _ => emitStraightLine node
|}.

(** The code these emitters give a variable or expression statement. *)
Definition sampleCode (node : Node) : list Value :=
  [Instruction (getText node) VoidTy []].

Definition eof : Node := mkNode EndOfFileToken EmptyString [].

(** Unit A holds [let a = 1;] and unit B holds [let b = 2;]. *)
Definition unitA : SourceFile :=
  mkNode (OtherKind 0) "let a = 1;"
         [mkNode VariableStatement "let a = 1;" []; eof].

Definition unitB : SourceFile :=
  mkNode (OtherKind 0) "let b = 2;"
         [mkNode VariableStatement "let b = 2;" []; eof].

Definition twoUnits : Program := mkProgram tt [unitA; unitB].

(** A unit with a function, a statement after it, a loop the generator does
    not handle, and a nested block. *)
Definition unitC : SourceFile :=
  mkNode (OtherKind 0) "function f() { g(); } h(); for (;;) {} { k(); }"
         [mkNode FunctionDeclaration "f"
                 [mkNode ExpressionStatement "g();" []];
          mkNode ExpressionStatement "h();" [];
          mkNode (OtherKind 1) "for (;;) {}" [];
          mkNode Block "{ k(); }" [mkNode ExpressionStatement "k();" []];
          eof].

Definition mixed : Program := mkProgram tt [unitA; unitC; unitB].

End Sample.


(** ** More vocabulary, and emitters that evaluate *)

Module CodegenMore.
Import LLVM TS Diagnostics Utils Codegen.

Section Dispatch.
Context `{Host} `{!Emitters}.
Local Open Scope gen_scope.

(** The second switch of [emitNode]: the hand-over of a node to the emitter
    of its kind. *)
Definition dispatch (this : LLVMGenerator) (node : Node) (parentScope : Scope)
  : Gen unit :=
  match kind node with
  | FunctionDeclaration => emitFunctionDeclaration node parentScope this
  | MethodDeclaration => emitFunctionDeclaration node parentScope this
  | Constructor => emitFunctionDeclaration node parentScope this
  | ClassDeclaration => emitClassDeclaration node parentScope this
  | ModuleDeclaration => emitModuleDeclaration node parentScope this
  | Block => emitBlock node this
  | ExpressionStatement => emitExpressionStatement node this
  | IfStatement => emitIfStatement node parentScope this
  | ReturnStatement => emitReturnStatement node this
  | VariableStatement => emitVariableStatement node parentScope this
  | EndOfFileToken | InterfaceDeclaration => ret tt
  | _ => warn (unhandledNodeNotice node)
  end.

(** The notices a list of nodes without emitter raises: one for each node
    that is not of a silent kind, in the order of the nodes. *)
Definition noticesOf (nodes : list Node) : list string :=
  map unhandledNodeNotice
      (filter (fun node => isSilentKind (kind node) = false) nodes).

(** The generator's state with more notices received. *)
Definition withNotices (messages : list string) (s : GeneratorState)
  : GeneratorState :=
  mkState (checker s) (module s) (builder s) (symbolTable s)
          (notices s ++ messages).

End Dispatch.

End CodegenMore.

(** Emitters as in [Sample], except that an expression statement first has
    the generator evaluate the expressions below it. *)
Module Evaluating.
Import LLVM TS Diagnostics Utils Codegen Sample.
Local Open Scope gen_scope.

Definition emitEvaluated (node : Node) (this : LLVMGenerator) : Gen unit :=
  forEach (fun child => callEmitExpression this child ;; ret tt) (children node) ;;
  emitStraightLine node.

Definition emitters : Emitters := {|
  emitClassDeclaration := fun node _ this => emitChildren 2 node this;
  emitFunctionDeclaration := fun node _ this => emitFunction node this;
  emitModuleDeclaration := fun node _ this => emitChildren 3 node this;
  emitBinaryExpression := fun node _ => emitConstant node;
  emitBooleanLiteral := fun node _ => emitConstant node;
  emitCallExpression := fun node _ => emitConstant node;
  emitIdentifier := fun node _ => emitConstant node;
  emitNewExpression := fun node _ => emitConstant node;
  emitNumericLiteral := fun node _ => emitConstant node;
  emitObjectLiteralExpression := fun node _ => emitConstant node;
  emitPropertyAccessExpression := fun node _ => emitConstant node;
  emitStringLiteral := fun node _ => emitConstant node;
  emitBlock := fun node this => emitChildren 4 node this;
  emitExpressionStatement := emitEvaluated;
  emitIfStatement := fun node scope this => emitChildren scope node this;
  emitReturnStatement := fun node _ =>
    createInstruction (ReturnInst None) ;; ret tt;
  emitVariableStatement := fun node _ _ => emitStraightLine node
|}.

(** [let a = 1; a ? b : c; let b = 2;], the conditional being an expression
    the generator has no emitter for. *)
Definition conditionalStatement : Node :=
  mkNode ExpressionStatement "a ? b : c;" [mkNode (OtherKind 2) "a ? b : c" []].

Definition unitD : SourceFile :=
  mkNode (OtherKind 0) "let a = 1; a ? b : c; let b = 2;"
         [mkNode VariableStatement "let a = 1;" [];
          conditionalStatement;
          mkNode VariableStatement "let b = 2;" [];
          eof].

Definition withConditional : Program := mkProgram tt [unitD].

(** A unit of declarations the generator emits nothing for, and a loop. *)
Definition unitE : SourceFile :=
  mkNode (OtherKind 0) "interface I {} for (;;) {} while (x) {}"
         [mkNode InterfaceDeclaration "interface I {}" [];
          mkNode (OtherKind 1) "for (;;) {}" [];
          mkNode (OtherKind 3) "while (x) {}" [];
          eof].

Definition nothingToEmit : Program := mkProgram tt [unitE].

End Evaluating.

(** * Properties *)

(** ** replaceExtension *)

Section ReplaceExtension.
Import JsString Utils.

Example replaceExtension_ts :
  replaceExtension "src/main.ts" ".ll" = "src/main.ll".
Proof. reflexivity. Qed.

Example replaceExtension_dotted_directory :
  replaceExtension "a.b/c" ".ll" = "a.b/c.ll".
Proof. reflexivity. Qed.

Example replaceExtension_last_suffix_only :
  replaceExtension "x.tar.gz" ".o" = "x.tar.o".
Proof. reflexivity. Qed.

Example replaceExtension_trailing_dot :
  replaceExtension "file." ".o" = "file..o".
Proof. reflexivity. Qed.

Example finalSegment_mixed_separators :
  finalSegment "a.b/c\d.e" = "d.e" /\ directoryPart "a.b/c\d.e" = "a.b/c\".
Proof. split; reflexivity. Qed.

Lemma atomMatches_class c :
  atomMatches (NoneOf ["."; "/"; "\"]%char) c = isExtensionChar c.
Proof.
  unfold atomMatches, ascii_mem, isExtensionChar, isDot, isSeparator; simpl.
  destruct (Ascii.eqb c "."), (Ascii.eqb c "/"), (Ascii.eqb c "\"); reflexivity.
Qed.

Lemma matchPlus_class_end t :
  matchPlus (NoneOf ["."; "/"; "\"]%char) (matchHere [EndOfInput]) t =
  match t with
  | EmptyString => None
  | String _ _ =>
      if string_forallb isExtensionChar t then Some EmptyString else None
  end.
Proof.
  induction t as [|c r IH]; [reflexivity|].
  cbn [matchPlus string_forallb]. rewrite atomMatches_class.
  destruct (isExtensionChar c); [|reflexivity].
  rewrite IH. destruct r as [|d r']; [reflexivity|].
  cbn [andb]. destruct (string_forallb isExtensionChar (String d r')); reflexivity.
Qed.

Lemma matchHere_extensionPattern s :
  matchHere extensionPattern s =
  if isDotSuffix s then Some EmptyString else None.
Proof.
  destruct s as [|c t]; [reflexivity|].
  unfold extensionPattern. cbn [matchHere atomMatches isDotSuffix].
  fold (isDot c). destruct (isDot c); [|reflexivity].
  cbn [andb]. rewrite matchPlus_class_end. destruct t; reflexivity.
Qed.

Lemma replace_extension_cons c s :
  replace extensionPattern EmptyString (String c s) =
  if isDotSuffix (String c s) then EmptyString
  else String c (replace extensionPattern EmptyString s).
Proof.
  cbn [replace]. rewrite matchHere_extensionPattern.
  destruct (isDotSuffix (String c s)); reflexivity.
Qed.

Lemma string_app_assoc (a b c : string) : (a +:+ b) +:+ c = a +:+ (b +:+ c).
Proof.
  induction a as [|x a IH]; [reflexivity|].
  change (String x ((a +:+ b) +:+ c) = String x (a +:+ (b +:+ c))).
  now rewrite IH.
Qed.

Lemma string_forallb_app p a b :
  string_forallb p (a +:+ b) = string_forallb p a && string_forallb p b.
Proof.
  induction a as [|x a IH]; [reflexivity|].
  change (p x && string_forallb p (a +:+ b) =
          p x && string_forallb p a && string_forallb p b).
  rewrite IH. now rewrite andb_assoc.
Qed.

Lemma isExtensionChar_dot : isExtensionChar "." = false.
Proof. reflexivity. Qed.

Lemma isExtensionChar_not_separator c :
  isExtensionChar c = true -> isSeparator c = false.
Proof.
  unfold isExtensionChar. destruct (isDot c), (isSeparator c); simpl; congruence.
Qed.

Lemma extension_chars_no_separator s :
  string_forallb isExtensionChar s = true -> string_existsb isSeparator s = false.
Proof.
  induction s as [|c s IH]; simpl; [reflexivity|].
  intros [Hc Hs]%andb_prop.
  rewrite (isExtensionChar_not_separator _ Hc), IH; auto.
Qed.

Lemma isDotSuffix_no_separator s :
  isDotSuffix s = true -> string_existsb isSeparator s = false.
Proof.
  destruct s as [|c t]; [reflexivity|]. cbn [isDotSuffix string_existsb].
  intros [Hc Ht]%andb_prop.
  assert (isSeparator c = false) as ->.
  { unfold isDot in Hc. apply Ascii.eqb_eq in Hc. subst c. reflexivity. }
  destruct t; [discriminate|]. now apply extension_chars_no_separator.
Qed.

(** A dot that is followed by another dot starts no dot-suffix. *)
Lemma isDotSuffix_before_dot c stem sfx :
  isDotSuffix (String c (stem +:+ String "." sfx)) = false.
Proof.
  cbn [isDotSuffix].
  assert (string_forallb isExtensionChar (stem +:+ String "." sfx) = false) as E.
  { rewrite string_forallb_app. cbn [string_forallb].
    rewrite isExtensionChar_dot. cbn [andb]. apply andb_false_r. }
  destruct (stem +:+ String "." sfx); [apply andb_false_r|].
  rewrite E. apply andb_false_r.
Qed.

Lemma replace_extension_suffix stem sfx :
  sfx <> EmptyString ->
  string_forallb isExtensionChar sfx = true ->
  replace extensionPattern EmptyString (stem +:+ String "." sfx) = stem.
Proof.
  intros Hne Hall. induction stem as [|c stem IH].
  - change (EmptyString +:+ String "." sfx) with (String "." sfx).
    rewrite replace_extension_cons.
    cbn [isDotSuffix]. destruct sfx; [congruence|]. rewrite Hall. reflexivity.
  - change (String c stem +:+ String "." sfx)
      with (String c (stem +:+ String "." sfx)).
    rewrite replace_extension_cons.
    rewrite isDotSuffix_before_dot. now rewrite IH.
Qed.

(** The split of a path that [replace] performs: what it keeps and what it
    removes, the latter being empty or a dot-suffix. *)
Lemma replace_extension_split s :
  exists removed,
    s = replace extensionPattern EmptyString s +:+ removed /\
    (removed = EmptyString \/ isDotSuffix removed = true).
Proof.
  induction s as [|c s (removed & IHs & IHr)].
  - exists EmptyString. split; [reflexivity | now left].
  - rewrite replace_extension_cons.
    destruct (isDotSuffix (String c s)) eqn:E.
    + exists (String c s). split; [reflexivity | now right].
    + exists removed. split; [|assumption].
      change (String c s =
              String c (replace extensionPattern EmptyString s +:+ removed)).
      now rewrite <- IHs.
Qed.

Lemma directoryPart_finalSegment s :
  s = directoryPart s +:+ finalSegment s.
Proof.
  induction s as [|c s IH]; [reflexivity|]. cbn [directoryPart finalSegment].
  destruct (string_existsb isSeparator s).
  - change (String c s = String c (directoryPart s +:+ finalSegment s)).
    now rewrite <- IH.
  - destruct (isSeparator c); reflexivity.
Qed.

Lemma finalSegment_no_separator s :
  string_existsb isSeparator s = false -> finalSegment s = s.
Proof.
  destruct s as [|c s]; [reflexivity|]. cbn [string_existsb finalSegment].
  intros [Hc Hs]%orb_false_elim. now rewrite Hs, Hc.
Qed.

Lemma isDotSuffix_separator_after c s :
  string_existsb isSeparator s = true -> isDotSuffix (String c s) = false.
Proof.
  intros Hs. cbn [isDotSuffix].
  destruct (string_forallb isExtensionChar s) eqn:E.
  - apply extension_chars_no_separator in E. congruence.
  - destruct s; apply andb_false_r.
Qed.

Lemma isDotSuffix_separator_first c s :
  isSeparator c = true -> isDotSuffix (String c s) = false.
Proof.
  intros Hc. cbn [isDotSuffix].
  assert (isDot c = false) as ->; [|reflexivity].
  unfold isDot, isSeparator in *.
  destruct (Ascii.eqb_spec c "."); [subst c; discriminate | reflexivity].
Qed.

Lemma replace_extension_directory s :
  replace extensionPattern EmptyString s =
  directoryPart s +:+ replace extensionPattern EmptyString (finalSegment s).
Proof.
  induction s as [|c s IH]; [reflexivity|].
  cbn [directoryPart finalSegment].
  destruct (string_existsb isSeparator s) eqn:Hs.
  - rewrite replace_extension_cons, isDotSuffix_separator_after by assumption.
    change (String c (replace extensionPattern EmptyString s) =
            String c (directoryPart s +:+
                      replace extensionPattern EmptyString (finalSegment s))).
    now rewrite <- IH.
  - destruct (isSeparator c) eqn:Hc; [|reflexivity].
    rewrite replace_extension_cons, isDotSuffix_separator_first by assumption.
    reflexivity.
Qed.

Lemma replace_extension_no_dot s :
  string_existsb isDot (finalSegment s) = false ->
  replace extensionPattern EmptyString s = s.
Proof.
  induction s as [|c s IH]; [reflexivity|].
  cbn [finalSegment]. rewrite replace_extension_cons.
  destruct (string_existsb isSeparator s) eqn:Hs.
  - intros Hd. rewrite isDotSuffix_separator_after by assumption.
    now rewrite IH.
  - rewrite (finalSegment_no_separator s Hs) in IH.
    destruct (isSeparator c) eqn:Hc.
    + intros Hd. rewrite isDotSuffix_separator_first by assumption.
      now rewrite IH.
    + cbn [string_existsb]. intros [Hc' Hd]%orb_false_elim.
      cbn [isDotSuffix]. rewrite Hc'. cbn [andb]. now rewrite IH.
Qed.

(** C7. A path that ends in a dot-suffix (a dot followed by one or more
    characters, none of them a dot or a path separator) loses exactly this
    suffix, and the supplied extension is appended to what is left. *)
Theorem replaceExtension_replaces_dot_suffix (stem sfx extension : string) :
  sfx <> EmptyString ->
  string_forallb isExtensionChar sfx = true ->
  replaceExtension (stem +:+ String "." sfx) extension = stem +:+ extension.
Proof.
  intros Hne Hall. unfold replaceExtension.
  now rewrite replace_extension_suffix.
Qed.

Lemma replaceExtension_replaces_dot_suffix_witness :
  replaceExtension ("lib/app.test" +:+ String "." "ts") ".ll" = "lib/app.test.ll".
Proof.
  apply (replaceExtension_replaces_dot_suffix "lib/app.test" "ts" ".ll").
  - discriminate.
  - reflexivity.
Defined.

(** C10. The directory part of a path (everything up to and including its
    last separator) is carried over unchanged and only the final segment is
    rewritten; the text that is removed holds no separator; and when the
    final segment holds no dot, nothing is removed at all. *)
Theorem replaceExtension_keeps_directories (path extension : string) :
  replaceExtension path extension =
    directoryPart path +:+ replaceExtension (finalSegment path) extension
  /\ (exists kept removed,
        path = kept +:+ removed /\
        replaceExtension path extension = kept +:+ extension /\
        string_existsb isSeparator removed = false)
  /\ (string_existsb isDot (finalSegment path) = false ->
      replaceExtension path extension = path +:+ extension).
Proof.
  unfold replaceExtension. repeat split.
  - rewrite (replace_extension_directory path) at 1. apply string_app_assoc.
  - destruct (replace_extension_split path) as (removed & Hsplit & Hrem).
    exists (replace extensionPattern EmptyString path), removed.
    repeat split; [assumption|].
    destruct Hrem as [-> | Hrem]; [reflexivity|].
    now apply isDotSuffix_no_separator.
  - intros Hd. now rewrite replace_extension_no_dot.
Qed.

Lemma replaceExtension_keeps_directories_witness :
  replaceExtension "v1.2/Makefile" ".ll" = "v1.2/Makefile.ll".
Proof.
  apply (replaceExtension_keeps_directories "v1.2/Makefile" ".ll").
  reflexivity.
Defined.

End ReplaceExtension.

(** ** isValueType *)

Section TypeClassification.
Import LLVM Utils.

(** C6. A type is value-typed exactly when it is [double]; integer types
    (booleans among them), pointers (strings and object references among
    them), structures and arrays are not. *)
Theorem isValueType_exactly_double :
  (forall t, isValueType t = true <-> t = DoubleTy) /\
  (forall bits, isValueType (IntegerTy bits) = false) /\
  (forall t, isValueType (PointerTy t) = false) /\
  (forall name, isValueType (StructTy name) = false) /\
  (forall t n, isValueType (ArrayTy t n) = false).
Proof.
  repeat split; try reflexivity.
  - destruct t; simpl; congruence.
  - intros ->. reflexivity.
Qed.

End TypeClassification.

(** ** getMemberIndex *)

Section MemberIndex.
Import LLVM TS Diagnostics Utils.
Local Open Scope Z_scope.

Example getMemberIndex_point_y :
  getMemberIndex "y" (mkClassDeclaration (Some "Point")
                        [PropertyMember "x"; PropertyMember "y"]) = Returned 1.
Proof. reflexivity. Qed.

Example getMemberIndex_point_z :
  getMemberIndex "z" (mkClassDeclaration (Some "Point")
                        [PropertyMember "x"; PropertyMember "y"])
  = Thrown (FatalError "Type 'Point' has no field 'z'").
Proof. reflexivity. Qed.

Example getMemberIndex_method_of_that_name :
  getMemberIndex "m" (mkClassDeclaration (Some "A")
                        [MethodMember "m"; PropertyMember "x"])
  = Thrown (FatalError "Type 'A' has no field 'm'").
Proof. reflexivity. Qed.

Lemma findIndex_cons_false {A} (p : A -> bool) x l :
  p x = false ->
  findIndex p (x :: l) = if findIndex p l <? 0 then -1 else findIndex p l + 1.
Proof. intros Hx. simpl. now rewrite Hx. Qed.

Lemma findIndex_cons_true {A} (p : A -> bool) x l :
  p x = true -> findIndex p (x :: l) = 0.
Proof. intros Hx. simpl. now rewrite Hx. Qed.

Lemma findIndex_miss {A} (p : A -> bool) l :
  findIndex p l < 0 <-> (forall x, In x l -> p x = false).
Proof.
  induction l as [|x l IH]; simpl.
  - split; [intros _ ? [] | lia].
  - destruct (p x) eqn:Hx.
    + split; [lia|]. intros Hall. specialize (Hall x (or_introl eq_refl)).
      congruence.
    + destruct (Z.ltb_spec (findIndex p l) 0) as [Hlt|Hge].
      * split; [|lia]. intros _ y [<-|Hy]; [assumption|].
        now apply (proj1 IH Hlt).
      * split; [lia|]. intros Hall. exfalso.
        assert (findIndex p l < 0); [|lia].
        apply IH. intros y Hy. apply Hall. now right.
Qed.

Lemma findIndex_found {A} (p : A -> bool) l :
  0 <= findIndex p l ->
  exists x, l !! Z.to_nat (findIndex p l) = Some x /\ p x = true /\
            forall j y, (j < Z.to_nat (findIndex p l))%nat ->
                        l !! j = Some y -> p y = false.
Proof.
  induction l as [|x l IH]; simpl; [lia|].
  destruct (p x) eqn:Hx.
  - intros _. exists x. repeat split; [assumption|]. intros j y Hj. simpl in Hj. lia.
  - destruct (Z.ltb_spec (findIndex p l) 0) as [Hlt|Hge]; [lia|].
    intros _. destruct (IH Hge) as (y & Hy & Hp & Hfirst).
    replace (Z.to_nat (findIndex p l + 1)) with (S (Z.to_nat (findIndex p l)))
      by lia.
    exists y. repeat split; [assumption..|].
    intros [|j] z Hj Hz; simpl in Hz.
    + congruence.
    + apply (Hfirst j); [lia | assumption].
Qed.

Lemma isFieldNamed_true name m :
  isFieldNamed name m = true <-> m = PropertyMember name.
Proof.
  unfold isFieldNamed. destruct m; simpl; split; try congruence.
  - intros E%String.eqb_eq. now subst.
  - intros [= ->]. apply String.eqb_refl.
Qed.

Lemma In_fieldNames name ms :
  In name (fieldNames ms) <-> In (PropertyMember name) ms.
Proof.
  unfold fieldNames. rewrite <- !list_elem_of_In, list_elem_of_omap. split.
  - intros (m & Hm & E). destruct m; try discriminate. now injection E as ->.
  - intros Hm. now exists (PropertyMember name).
Qed.

(** The index among all members is the position among the fields plus the
    number of members before it that are not fields. *)
Lemma findIndex_field_position name ms :
  0 <= findIndex (isFieldNamed name) ms ->
  0 <= fieldPosition name ms /\
  findIndex (isFieldNamed name) ms =
    fieldPosition name ms +
    Z.of_nat (nonFieldsBefore (Z.to_nat (findIndex (isFieldNamed name) ms)) ms).
Proof.
  unfold fieldPosition, nonFieldsBefore.
  induction ms as [|m ms IH]; [simpl; lia|].
  destruct (isFieldNamed name m) eqn:Hm.
  - apply isFieldNamed_true in Hm. subst m.
    rewrite (findIndex_cons_true (isFieldNamed name))
      by now apply isFieldNamed_true.
    change (fieldNames (PropertyMember name :: ms)) with (name :: fieldNames ms).
    rewrite findIndex_cons_true by apply String.eqb_refl.
    simpl. lia.
  - rewrite (findIndex_cons_false (isFieldNamed name)) by assumption.
    destruct (Z.ltb_spec (findIndex (isFieldNamed name) ms) 0) as [Hlt|Hge]; [lia|].
    intros _. destruct (IH Hge) as [Hpos Heq].
    replace (Z.to_nat (findIndex (isFieldNamed name) ms + 1))
      with (S (Z.to_nat (findIndex (isFieldNamed name) ms))) by lia.
    rewrite firstn_cons.
    destruct m as [n| | | | | |].
    2-7: (rewrite filter_cons_True by reflexivity; cbn [length];
          match goal with
          | |- context [fieldNames (?m :: ?l)] =>
              change (fieldNames (m :: l)) with (fieldNames l)
          end; lia).
    rewrite filter_cons_False by (simpl; congruence).
    change (fieldNames (PropertyMember n :: ms)) with (n :: fieldNames ms).
    assert (String.eqb n name = false) as Hn by exact Hm.
    rewrite findIndex_cons_false by assumption.
    destruct (Z.ltb_spec
                (findIndex (fun n0 => String.eqb n0 name) (fieldNames ms)) 0);
      lia.
Qed.

(** C3, as the specification has it, fails: a member that is not a property
    declaration takes up an index, so the index of a field is not its
    position among the fields. *)
Lemma getMemberIndex_counts_every_member :
  ~ (forall name declaration i,
       getMemberIndex name declaration = Returned i ->
       i = fieldPosition name (members declaration)).
Proof.
  intros Hclaim.
  specialize (Hclaim "x" (mkClassDeclaration (Some "A")
                            [MethodMember "m"; PropertyMember "x"]) 1 eq_refl).
  discriminate Hclaim.
Qed.

(** C3, amended. For a field that no member of another kind precedes in the
    class body (so in every class whose property declarations come first),
    the index is the field's position among the property declarations, in
    declaration order. In general the index is the position of the first
    property declaration of that name in the class's member list: only
    property declarations are matched, and the index exceeds the position
    among them by the number of other members declared before it. A name
    that no property declaration of the class has is a hard error, which for
    a named class is the diagnostic naming the class and the field; no index
    is returned. *)
Theorem getMemberIndex_positional (name : string) (declaration : ClassDeclarationNode) :
  (forall i, getMemberIndex name declaration = Returned i ->
     0 <= i /\
     members declaration !! Z.to_nat i = Some (PropertyMember name) /\
     (forall j, (j < Z.to_nat i)%nat ->
                members declaration !! j <> Some (PropertyMember name)) /\
     0 <= fieldPosition name (members declaration) /\
     i = fieldPosition name (members declaration)
         + Z.of_nat (nonFieldsBefore (Z.to_nat i) (members declaration)) /\
     (nonFieldsBefore (Z.to_nat i) (members declaration) = 0%nat ->
      i = fieldPosition name (members declaration)))
  /\ (In name (fieldNames (members declaration)) ->
      exists i, getMemberIndex name declaration = Returned i)
  /\ (~ In name (fieldNames (members declaration)) ->
      getMemberIndex name declaration =
      match className declaration with
      | Some text =>
          Thrown (FatalError
                    ("Type '" +:+ text +:+ "' has no field '" +:+ name +:+ "'"))
      | None => Thrown TypeError
      end).
Proof.
  assert (Hfield : isFieldNamed name (PropertyMember name) = true)
    by now apply isFieldNamed_true.
  unfold getMemberIndex.
  destruct (Z.ltb_spec (findIndex (isFieldNamed name) (members declaration)) 0)
    as [Hlt|Hge].
  - pose proof (proj1 (findIndex_miss _ _) Hlt) as Hmiss.
    split; [|split].
    + intros i Hi. destruct (className declaration); discriminate Hi.
    + intros Hin%In_fieldNames. apply Hmiss in Hin. congruence.
    + reflexivity.
  - destruct (findIndex_found _ _ Hge) as (x & Hx & Hp & Hfirst).
    apply isFieldNamed_true in Hp. subst x.
    split; [|split].
    + intros i [= Hi]. subst i.
      split; [assumption|]. split; [assumption|]. split.
      * intros j Hj Hmem. specialize (Hfirst j _ Hj Hmem). congruence.
      * destruct (findIndex_field_position name (members declaration) Hge)
          as [Hpos Heq].
        split; [assumption|]. split; [assumption|].
        intros Hnone. rewrite Hnone in Heq. lia.
    + intros _. now eexists.
    + intros Hnot. exfalso. apply Hnot, In_fieldNames.
      apply list_elem_of_In, list_elem_of_lookup. eauto.
Qed.

Lemma getMemberIndex_positional_witness :
  getMemberIndex "z" (mkClassDeclaration (Some "Point")
                        [PropertyMember "x"; ConstructorMember; PropertyMember "y"])
  = Thrown (FatalError "Type 'Point' has no field 'z'")
  /\ exists i, getMemberIndex "y" (mkClassDeclaration (Some "Point")
                        [PropertyMember "x"; ConstructorMember; PropertyMember "y"])
               = Returned i.
Proof.
  split.
  - apply (getMemberIndex_positional "z"
             (mkClassDeclaration (Some "Point")
                [PropertyMember "x"; ConstructorMember; PropertyMember "y"])).
    simpl. intros [H|[H|[]]]; discriminate H.
  - apply (getMemberIndex_positional "y"
             (mkClassDeclaration (Some "Point")
                [PropertyMember "x"; ConstructorMember; PropertyMember "y"])).
    simpl. right. left. reflexivity.
Defined.

End MemberIndex.

(** ** The generator *)

Section GeneratorProperties.
Import LLVM TS Diagnostics Utils Codegen.
Context `{Host} `{!Emitters}.
Local Open Scope gen_scope.

(** *** The module under the builder *)

Lemma instructionsAt_insertAtEnd b i m body :
  instructionsAt b m = Some body ->
  instructionsAt b (insertAtEnd b i m) = Some (body ++ [i]).
Proof.
  unfold instructionsAt, insertAtEnd. cbn [functions].
  rewrite list_lookup_alter_eq.
  destruct (functions m !! parent b) as [fn|]; [|discriminate].
  cbn. rewrite list_lookup_alter_eq.
  destruct (getBasicBlocks fn !! position b) as [blk|]; [|discriminate].
  cbn. now intros [= ->].
Qed.

Lemma instructionsAt_insertAtEnd_other_function b b' i m :
  parent b' <> parent b ->
  instructionsAt b' (insertAtEnd b i m) = instructionsAt b' m.
Proof.
  intros Hne. unfold instructionsAt, insertAtEnd. cbn [functions].
  now rewrite list_lookup_alter_ne by congruence.
Qed.

Lemma instructionsAt_insertAtEnd_other_block b b' i m :
  b' <> b ->
  instructionsAt b' (insertAtEnd b i m) = instructionsAt b' m.
Proof.
  intros Hne. destruct (decide (parent b' = parent b)) as [Hp|Hp];
    [|now apply instructionsAt_insertAtEnd_other_function].
  assert (position b' <> position b) as Hpos.
  { destruct b, b'; simpl in *; congruence. }
  unfold instructionsAt, insertAtEnd. cbn [functions].
  rewrite Hp, list_lookup_alter_eq.
  destruct (functions m !! parent b) as [fn|]; [|reflexivity].
  cbn. now rewrite list_lookup_alter_ne by congruence.
Qed.

Lemma functions_insertAtEnd_other b i m f :
  f <> parent b ->
  functions (insertAtEnd b i m) !! f = functions m !! f.
Proof.
  intros Hne. unfold insertAtEnd. cbn [functions].
  now rewrite list_lookup_alter_ne by congruence.
Qed.

Lemma lastBlock_spec f m b :
  lastBlock f m = Some b ->
  parent b = f /\ S (position b) = length (blocksOf f m) /\
  exists body, instructionsAt b m = Some body.
Proof.
  unfold lastBlock. destruct (length (blocksOf f m)) as [|n] eqn:Hlen;
    [discriminate|].
  intros [= <-]. cbn [parent position]. repeat split.
  unfold instructionsAt, blocksOf in *. cbn [parent position].
  destruct (functions m !! f) as [fn|]; [|discriminate].
  cbn in Hlen. destruct (lookup_lt_is_Some_2 (getBasicBlocks fn) n) as [blk Hblk];
    [lia|].
  rewrite Hblk. now eexists.
Qed.

(** *** createLoadIfAllocaOrPointerToValueType *)

Lemma createLoad_run pointer (s : GeneratorState) :
  createLoad pointer s
  = Returned (LoadInst pointer, withInstruction (LoadInst pointer) s).
Proof. destruct s. reflexivity. Qed.

(** C2, amended. A produced value is loaded when it is an alloca instruction,
    whatever it allocates, or when its type is a pointer to a value type; the
    load is created at the insertion point and has the pointee type. Every
    other value is returned unchanged and nothing is emitted; in particular
    the address of a reference-typed location is left as it is unless the
    value is itself an alloca instruction. *)
Theorem createLoadIf_loads_allocas_and_value_pointers
  (value : Value) (s : GeneratorState) :
  (instanceofAllocaInst value = true \/ isValueTypedAddress value = true ->
   createLoadIfAllocaOrPointerToValueType value s
   = Returned (LoadInst value, withInstruction (LoadInst value) s)
   /\ elementType (valueType value) = Some (valueType (LoadInst value)))
  /\ (instanceofAllocaInst value = false ->
      isValueTypedAddress value = false ->
      createLoadIfAllocaOrPointerToValueType value s = Returned (value, s))
  /\ (instanceofAllocaInst value = false ->
      isReferenceTypedAddress value = true ->
      createLoadIfAllocaOrPointerToValueType value s = Returned (value, s)).
Proof.
  unfold createLoadIfAllocaOrPointerToValueType, isValueTypedAddress,
    isReferenceTypedAddress.
  split; [|split].
  - intros [Ha|Hp].
    + rewrite Ha. cbn [orb]. split; [apply createLoad_run|].
      destruct value; try discriminate. reflexivity.
    + destruct (valueType value) as [| | | |t| | |] eqn:Ht; try discriminate.
      cbn. rewrite Hp, orb_true_r. split; [apply createLoad_run|].
      cbn [valueType]. now rewrite Ht.
  - intros -> Hp. cbn [orb].
    destruct (valueType value) as [| | | |t| | |]; try reflexivity.
    cbn. now rewrite Hp.
  - intros -> Hr. cbn [orb].
    destruct (valueType value) as [| | | |t| | |]; try discriminate.
    cbn. apply negb_true_iff in Hr. now rewrite Hr.
Qed.

(** *** Dispatch on the kind of a node *)

Lemma emitNode_silent this node parentScope (s : GeneratorState) :
  isSilentKind (kind node) = true ->
  emitNode this node parentScope s = Returned (tt, s).
Proof.
  unfold emitNode. destruct (kind node); try discriminate; reflexivity.
Qed.

Lemma emitNode_unhandled this node parentScope (s : GeneratorState) :
  isEmittedKind (kind node) = false ->
  isSilentKind (kind node) = false ->
  emitNode this node parentScope s
  = Returned (tt, noticed (unhandledNodeNotice node) s).
Proof.
  unfold emitNode, unhandledNodeNotice.
  destruct (kind node); try discriminate; reflexivity.
Qed.

Lemma emitExpression_unhandled this expression (s : GeneratorState) :
  isExpressionKind (kind expression) = false ->
  emitExpression this expression s
  = Thrown (FatalError (unhandledExpressionMessage expression)).
Proof.
  unfold emitExpression, unhandledExpressionMessage.
  destruct (kind expression); try discriminate; reflexivity.
Qed.

Lemma setInsertionPointToMain_run (s : GeneratorState) :
  setInsertionPointToMain s =
  match getFunction "main" (module s) with
  | Some main =>
      match lastBlock main (module s) with
      | Some b => Returned (tt, positionedAt b s)
      | None => Thrown TypeError
      end
  | None => Thrown TypeError
  end.
Proof.
  unfold setInsertionPointToMain, bind, getState.
  destruct (getFunction "main" (module s)) as [main|]; [|reflexivity].
  destruct (lastBlock main (module s)); reflexivity.
Qed.

Lemma emitNode_statement this node parentScope (s : GeneratorState) :
  isStatementKind (kind node) = true ->
  emitNode this node parentScope s =
  if decide (parentScope = globalScope (symbolTable s))
  then match setInsertionPointToMain s with
       | Returned (_, s') => statementEmitter this node parentScope s'
       | Thrown e => Thrown e
       end
  else statementEmitter this node parentScope s.
Proof.
  unfold emitNode, statementEmitter, bind, getState.
  destruct (kind node); try discriminate; intros _;
    (destruct (decide (parentScope = globalScope (symbolTable s)));
     [destruct (setInsertionPointToMain s) as [[[] ?]|]|]; reflexivity).
Qed.


Lemma forEach_app {A} (f : A -> Gen unit) l1 l2 (s : GeneratorState) :
  forEach f (l1 ++ l2) s =
  match forEach f l1 s with
  | Returned (_, s') => forEach f l2 s'
  | Thrown e => Thrown e
  end.
Proof.
  revert s. induction l1 as [|x l1 IH]; intros s; [reflexivity|].
  cbn [app forEach]. unfold bind.
  destruct (f x s) as [[[] s']|e]; [apply IH | reflexivity].
Qed.

Lemma forEach_concat {A B} (f : B -> Gen unit) (h : A -> list B) l
  (s : GeneratorState) :
  forEach (fun x => forEach f (h x)) l s = forEach f (concat (map h l)) s.
Proof.
  revert s. induction l as [|x l IH]; intros s; [reflexivity|].
  cbn [map concat forEach]. rewrite forEach_app. unfold bind.
  destruct (forEach f (h x) s) as [[[] s']|e]; [apply IH | reflexivity].
Qed.

Lemma emitLLVM_unfold depth program :
  emitLLVM depth program =
  match forEach (emitTopLevel depth) (topLevelNodes program) (entryState program) with
  | Returned (_, s) =>
      match lastBlock entryFunction (module s) with
      | Some b =>
          match verifyModule (insertAtEnd b successReturn (module s)) with
          | Some report => Thrown (VerifierError report)
          | None => Returned (insertAtEnd b successReturn (module s))
          end
      | None => Thrown TypeError
      end
  | Thrown e => Thrown e
  end.
Proof.
  unfold topLevelNodes. rewrite <- forEach_concat.
  unfold emitLLVM. cbn. unfold bind.
  change (forEach (emitSourceFile (newLLVMGenerator depth)) (getSourceFiles program) _)
    with (forEach (fun x => forEach (emitTopLevel depth) (children x))
                  (getSourceFiles program) (entryState program)).
  destruct (forEach (fun x => forEach (emitTopLevel depth) (children x))
                    (getSourceFiles program) (entryState program))
    as [[[] s]|e]; [|reflexivity].
  cbn. change (lastBlock 0 (module s)) with (lastBlock entryFunction (module s)).
  destruct (lastBlock entryFunction (module s)) as [b|]; [|reflexivity].
  cbn. change (ReturnInst (Some (getNullValue getInt32Ty))) with successReturn.
  destruct (verifyModule (insertAtEnd b successReturn (module s))); reflexivity.
Qed.

Lemma emitTopLevel_run depth node (s : GeneratorState) :
  emitTopLevel (S depth) node s
  = emitNode (newLLVMGenerator depth) node (globalScope (symbolTable s)) s.
Proof. reflexivity. Qed.

Lemma getFunction_spec name m f :
  getFunction name m = Some f ->
  exists fn, functions m !! f = Some fn /\ functionName fn = name.
Proof.
  unfold getFunction. intros Hf.
  destruct (list_find _ (functions m)) as [[i fn]|] eqn:E; [|discriminate].
  injection Hf as <-. apply list_find_Some in E as (Hi & Hn & _).
  now exists fn.
Qed.

Lemma emitNode_statement_global this node (s : GeneratorState) main b :
  isStatementKind (kind node) = true ->
  getFunction "main" (module s) = Some main ->
  lastBlock main (module s) = Some b ->
  emitNode this node (globalScope (symbolTable s)) s
  = statementEmitter this node (globalScope (symbolTable s)) (positionedAt b s).
Proof.
  intros Hk Hmain Hb. rewrite emitNode_statement by assumption.
  rewrite decide_True by reflexivity.
  now rewrite setInsertionPointToMain_run, Hmain, Hb.
Qed.

Lemma createInstruction_run i (s : GeneratorState) :
  createInstruction i s = Returned (i, withInstruction i s).
Proof. destruct s. reflexivity. Qed.

(** C9. A node of kind EndOfFileToken or InterfaceDeclaration leaves the
    generator as it was: no instruction, no insertion-point move, no notice.
    A node of any other kind that has no emitter adds a notice. *)
Theorem emitNode_skips_eof_and_interfaces_silently
  this node parentScope (s : GeneratorState) :
  (kind node = EndOfFileToken \/ kind node = InterfaceDeclaration ->
   emitNode this node parentScope s = Returned (tt, s))
  /\ (isEmittedKind (kind node) = false ->
      kind node <> EndOfFileToken -> kind node <> InterfaceDeclaration ->
      exists s', emitNode this node parentScope s = Returned (tt, s') /\
                 notices s' = notices s ++ [unhandledNodeNotice node]).
Proof.
  split.
  - intros Hk. apply emitNode_silent. destruct Hk as [-> | ->]; reflexivity.
  - intros He Heof Hint. eexists. split.
    + apply emitNode_unhandled; [assumption|].
      destruct (kind node) eqn:E; solve [reflexivity | congruence].
    + reflexivity.
Qed.

(** C4, amended. A node that reaches [emitNode] with a kind it has no emitter
    for (and that is not one of the two silent kinds) raises a notice and
    nothing else: the module, the builder and the symbol table are as before
    and the remaining children of the source file are emitted next. An
    expression that reaches [emitExpression] with a kind it has no emitter
    for raises the fatal diagnostic instead, which ends the compilation
    attempt. *)
Theorem unhandled_node_is_noticed_unhandled_expression_is_fatal
  this node parentScope (s : GeneratorState) :
  (isEmittedKind (kind node) = false -> isSilentKind (kind node) = false ->
   emitNode this node parentScope s
   = Returned (tt, noticed (unhandledNodeNotice node) s)
   /\ module (noticed (unhandledNodeNotice node) s) = module s
   /\ builder (noticed (unhandledNodeNotice node) s) = builder s
   /\ symbolTable (noticed (unhandledNodeNotice node) s) = symbolTable s
   /\ forall depth k text rest,
        emitSourceFile (newLLVMGenerator (S depth)) (mkNode k text (node :: rest)) s
        = emitSourceFile (newLLVMGenerator (S depth)) (mkNode k text rest)
                         (noticed (unhandledNodeNotice node) s))
  /\ (isExpressionKind (kind node) = false ->
      emitExpression this node s
      = Thrown (FatalError (unhandledExpressionMessage node))).
Proof.
  split.
  - intros He Hs. split; [now apply emitNode_unhandled|].
    repeat split. intros depth k text rest.
    unfold emitSourceFile. cbn [children forEach]. unfold bind at 1.
    unfold bind at 1. cbn [getState callEmitNode newLLVMGenerator].
    now rewrite emitNode_unhandled.
  - apply emitExpression_unhandled.
Qed.

(** C8. A statement-kind node whose parent scope is the global scope reaches
    its emitter with the insertion point at the end of the last block of the
    function named "main": the current function is that function, and an
    instruction the builder creates there goes to that block and leaves every
    other function of the module as it was. Without such a function or
    without a block in it, the emitter is not reached at all. *)
Theorem emitNode_repositions_top_level_statements
  this node (s : GeneratorState) :
  isStatementKind (kind node) = true ->
  (forall main b,
     getFunction "main" (module s) = Some main ->
     lastBlock main (module s) = Some b ->
     emitNode this node (globalScope (symbolTable s)) s
     = statementEmitter this node (globalScope (symbolTable s)) (positionedAt b s)
     /\ (exists fn, functions (module s) !! main = Some fn /\
                    functionName fn = "main")
     /\ parent b = main
     /\ S (position b) = length (blocksOf main (module s))
     /\ currentFunction (positionedAt b s) = Returned (main, positionedAt b s)
     /\ forall i,
          createInstruction i (positionedAt b s)
          = Returned (i, withInstruction i (positionedAt b s))
          /\ module (withInstruction i (positionedAt b s))
             = insertAtEnd b i (module s)
          /\ forall f, f <> main ->
               functions (insertAtEnd b i (module s)) !! f
               = functions (module s) !! f)
  /\ (getFunction "main" (module s) = None ->
      emitNode this node (globalScope (symbolTable s)) s = Thrown TypeError)
  /\ (forall main,
        getFunction "main" (module s) = Some main ->
        lastBlock main (module s) = None ->
        emitNode this node (globalScope (symbolTable s)) s = Thrown TypeError).
Proof.
  intros Hk. split; [|split].
  - intros main b Hmain Hb.
    destruct (lastBlock_spec _ _ _ Hb) as (Hp & Hpos & _).
    split; [now apply (emitNode_statement_global this node s main b)|].
    split; [now apply getFunction_spec|].
    split; [assumption|]. split; [assumption|].
    split; [cbn; now rewrite Hp|].
    intros i. split; [apply createInstruction_run|].
    split; [reflexivity|].
    intros f Hf. apply functions_insertAtEnd_other. congruence.
  - intros Hmain. rewrite emitNode_statement by assumption.
    rewrite decide_True by reflexivity.
    now rewrite setInsertionPointToMain_run, Hmain.
  - intros main Hmain Hb. rewrite emitNode_statement by assumption.
    rewrite decide_True by reflexivity.
    now rewrite setInsertionPointToMain_run, Hmain, Hb.
Qed.


(** *** Straight-line units *)

Lemma createAll_entryOnly created c body st n :
  createAll created
    (mkState c (entryOnly body) (mkIRBuilder (Some (mkBlockRef 0 0))) st n)
  = mkState c (entryOnly (body ++ created))
            (mkIRBuilder (Some (mkBlockRef 0 0))) st n.
Proof.
  revert body. induction created as [|i created IH]; intros body.
  - now rewrite app_nil_r.
  - change (createAll (i :: created) ?s)
      with (createAll created (withInstruction i s)).
    change (withInstruction i
              (mkState c (entryOnly body) (mkIRBuilder (Some (mkBlockRef 0 0))) st n))
      with (mkState c (entryOnly (body ++ [i]))
                    (mkIRBuilder (Some (mkBlockRef 0 0))) st n).
    rewrite IH. now rewrite <- app_assoc.
Qed.

Lemma emitTopLevel_straight_line code depth node c body b st n :
  emitsStraightLine code ->
  isStraightLineKind (kind node) = true ->
  exists b',
    emitTopLevel (S depth) node (mkState c (entryOnly body) b st n)
    = Returned (tt, mkState c (entryOnly (body ++ codeOf code [node])) b' st n).
Proof.
  intros Hcode Hk. rewrite emitTopLevel_run. unfold codeOf.
  destruct (isStatementKind (kind node)) eqn:Hs.
  - rewrite filter_cons_True by assumption. cbn [filter map concat].
    rewrite app_nil_r. exists (mkIRBuilder (Some (mkBlockRef 0 0))).
    rewrite (emitNode_statement_global _ _ _ 0 (mkBlockRef 0 0))
      by (assumption || reflexivity).
    unfold statementEmitter.
    destruct (Hcode node (globalScope st) (newLLVMGenerator depth)
                (positionedAt (mkBlockRef 0 0) (mkState c (entryOnly body) b st n)))
      as [Hvar Hexpr].
    destruct (kind node); try discriminate; cbn [symbolTable];
      [rewrite Hexpr | rewrite Hvar]; unfold positionedAt; cbn;
      now rewrite createAll_entryOnly.
  - rewrite filter_cons_False by congruence. cbn [filter map concat].
    rewrite app_nil_r. exists b. apply emitNode_silent.
    destruct (kind node); try discriminate; reflexivity.
Qed.

Lemma codeOf_cons code node nodes :
  codeOf code (node :: nodes) = codeOf code [node] ++ codeOf code nodes.
Proof.
  unfold codeOf. destruct (isStatementKind (kind node)) eqn:Hs.
  - rewrite !filter_cons_True by assumption. cbn [filter map concat].
    now rewrite app_nil_r.
  - now rewrite !filter_cons_False by congruence.
Qed.

Lemma forEach_straight_line code depth nodes c body b st n :
  emitsStraightLine code ->
  forallb (fun node => isStraightLineKind (kind node)) nodes = true ->
  exists b',
    forEach (emitTopLevel (S depth)) nodes (mkState c (entryOnly body) b st n)
    = Returned (tt, mkState c (entryOnly (body ++ codeOf code nodes)) b' st n).
Proof.
  intros Hcode. revert body b.
  induction nodes as [|node nodes IH]; intros body b Hall.
  - exists b. cbn. unfold codeOf. cbn. now rewrite app_nil_r.
  - cbn [forallb] in Hall. apply andb_prop in Hall as [Hk Hall].
    destruct (emitTopLevel_straight_line code depth node c body b st n Hcode Hk)
      as [b1 H1].
    destruct (IH (body ++ codeOf code [node]) b1 Hall) as [b2 H2].
    exists b2. cbn [forEach]. unfold bind. rewrite H1, H2.
    now rewrite (codeOf_cons code node nodes), app_assoc.
Qed.

(** *** emitLLVM *)

Lemma emitSourceFiles_flat depth files (s : GeneratorState) :
  forEach (emitSourceFile (newLLVMGenerator depth)) files s
  = forEach (emitTopLevel depth) (concat (map children files)) s.
Proof. apply (forEach_concat (emitTopLevel depth) children). Qed.

(** C1. [emitLLVM] starts from a module whose only function is the entry
    function "main", without parameters, with one open block. The source
    files are emitted one after the other, which is the emission of their
    top-level nodes in the order of the files; each statement among them
    reaches its emitter with the insertion point in the entry function. A
    module is returned exactly when this emission returns, and it is the
    module so produced with one instruction more: the return of zero, at the
    end of the last block of the entry function. For emitters of
    straight-line code the entry function's block holds the code of the
    top-level statements of all units, in unit order, followed by that
    return. *)
Theorem emitLLVM_entry_function (depth : nat) (program : Program) :
  functions (module (entryState program))
  = [mkFunction "main" (FunctionTy (IntegerTy 32) [] false) ExternalLinkage
                [mkBasicBlock "entry" []]]
  /\ getFunction "main" (module (entryState program)) = Some entryFunction
  /\ (forall s,
        forEach (emitSourceFile (newLLVMGenerator depth)) (getSourceFiles program) s
        = forEach (emitTopLevel depth) (topLevelNodes program) s)
  /\ (forall d node s main b,
        isStatementKind (kind node) = true ->
        getFunction "main" (module s) = Some main ->
        lastBlock main (module s) = Some b ->
        emitTopLevel (S d) node s
        = statementEmitter (newLLVMGenerator d) node (globalScope (symbolTable s))
                           (positionedAt b s))
  /\ (forall m,
        emitLLVM depth program = Returned m <->
        exists s b,
          forEach (emitTopLevel depth) (topLevelNodes program) (entryState program)
          = Returned (tt, s)
          /\ lastBlock entryFunction (module s) = Some b
          /\ verifyModule (insertAtEnd b successReturn (module s)) = None
          /\ m = insertAtEnd b successReturn (module s))
  /\ (forall s b,
        lastBlock entryFunction (module s) = Some b ->
        exists body,
          instructionsAt b (module s) = Some body
          /\ instructionsAt b (insertAtEnd b successReturn (module s))
             = Some (body ++ [successReturn])
          /\ forall b', b' <> b ->
               instructionsAt b' (insertAtEnd b successReturn (module s))
               = instructionsAt b' (module s))
  /\ (forall code d,
        depth = S d ->
        emitsStraightLine code ->
        forallb (fun node => isStraightLineKind (kind node))
                (topLevelNodes program) = true ->
        verifyModule (entryOnly (codeOf code (topLevelNodes program)
                                 ++ [successReturn])) = None ->
        emitLLVM depth program
        = Returned (entryOnly (codeOf code (topLevelNodes program)
                               ++ [successReturn]))).
Proof.
  split; [reflexivity|]. split; [reflexivity|].
  split; [intros s; apply emitSourceFiles_flat|].
  split.
  { intros d node s main b Hk Hmain Hb. rewrite emitTopLevel_run.
    now apply (emitNode_statement_global _ node s main b). }
  split.
  { intros m. rewrite emitLLVM_unfold. split.
    - destruct (forEach _ _ _) as [[[] s]|e]; [|discriminate].
      destruct (lastBlock entryFunction (module s)) as [b|] eqn:Hb; [|discriminate].
      destruct (verifyModule _) eqn:Hv; [discriminate|].
      intros [= <-]. now exists s, b.
    - intros (s & b & -> & -> & -> & ->). reflexivity. }
  split.
  { intros s b Hb. destruct (lastBlock_spec _ _ _ Hb) as (_ & _ & body & Hbody).
    exists body. split; [assumption|].
    split; [now apply instructionsAt_insertAtEnd|].
    intros b' Hne. now apply instructionsAt_insertAtEnd_other_block. }
  intros code d -> Hcode Hall Hv. rewrite emitLLVM_unfold.
  destruct (forEach_straight_line code d (topLevelNodes program)
              (getTypeChecker program) [] (mkIRBuilder None) newSymbolTable []
              Hcode Hall) as [b' Hrun].
  change (mkState (getTypeChecker program) (entryOnly []) (mkIRBuilder None)
                  newSymbolTable []) with (entryState program) in Hrun.
  rewrite Hrun. cbn [app module].
  change (lastBlock entryFunction (entryOnly (codeOf code (topLevelNodes program))))
    with (Some (mkBlockRef 0 0)).
  cbv beta iota.
  change (insertAtEnd (mkBlockRef 0 0) successReturn
            (entryOnly (codeOf code (topLevelNodes program))))
    with (entryOnly (codeOf code (topLevelNodes program) ++ [successReturn])).
  now rewrite Hv.
Qed.

(** C5. A module that [emitLLVM] returns is the finished module (the return
    of zero is in place) and the verifier has accepted it; when the verifier
    reports on the finished module, [emitLLVM] throws that report and returns
    no module. *)
Theorem emitLLVM_returns_verified_modules (depth : nat) (program : Program) :
  (forall m,
     emitLLVM depth program = Returned m ->
     verifyModule m = None /\
     exists s b,
       forEach (emitTopLevel depth) (topLevelNodes program) (entryState program)
       = Returned (tt, s)
       /\ lastBlock entryFunction (module s) = Some b
       /\ m = insertAtEnd b successReturn (module s))
  /\ (forall s b report,
        forEach (emitTopLevel depth) (topLevelNodes program) (entryState program)
        = Returned (tt, s) ->
        lastBlock entryFunction (module s) = Some b ->
        verifyModule (insertAtEnd b successReturn (module s)) = Some report ->
        emitLLVM depth program = Thrown (VerifierError report)).
Proof.
  split.
  - intros m. rewrite emitLLVM_unfold.
    destruct (forEach _ _ _) as [[[] s]|e]; [|discriminate].
    destruct (lastBlock entryFunction (module s)) as [b|] eqn:Hb; [|discriminate].
    destruct (verifyModule _) eqn:Hv; [discriminate|].
    intros [= <-]. split; [assumption|]. now exists s, b.
  - intros s b report Hrun Hb Hv. now rewrite emitLLVM_unfold, Hrun, Hb, Hv.
Qed.

End GeneratorProperties.

(** ** The generator at work on concrete programs *)

Section Concrete.
Import LLVM TS Diagnostics Utils Codegen Sample.

Lemma sample_emitsStraightLine : emitsStraightLine sampleCode.
Proof. intros node parentScope this s. split; reflexivity. Qed.

(** The two units of the specification's example: both statements are in the
    entry function, in unit order, followed by the one return. *)
Example emitLLVM_two_units :
  emitLLVM 1 twoUnits
  = Returned
      (mkModule "main"
         [mkFunction "main" (FunctionTy (IntegerTy 32) [] false) ExternalLinkage
            [mkBasicBlock "entry"
               [Instruction "let a = 1;" VoidTy [];
                Instruction "let b = 2;" VoidTy [];
                ReturnInst (Some (ConstantNull (IntegerTy 32)))]]]).
Proof. reflexivity. Qed.

(** A function between top-level statements gets a body of its own; the
    statement after it is back in the entry function, and the loop the
    generator does not handle leaves a notice only. *)
Example emitLLVM_mixed_units :
  emitLLVM 2 mixed
  = Returned
      (mkModule "main"
         [mkFunction "main" (FunctionTy (IntegerTy 32) [] false) ExternalLinkage
            [mkBasicBlock "entry"
               [Instruction "let a = 1;" VoidTy [];
                Instruction "h();" VoidTy [];
                Instruction "k();" VoidTy [];
                Instruction "let b = 2;" VoidTy [];
                ReturnInst (Some (ConstantNull (IntegerTy 32)))]];
          mkFunction "f" (FunctionTy VoidTy [] false) ExternalLinkage
            [mkBasicBlock "entry"
               [Instruction "g();" VoidTy []; ReturnInst None]]]).
Proof. reflexivity. Qed.

(** A top-level return closes the block of the entry function before the
    final return does: the verifier reports and no module is returned. *)
Example emitLLVM_top_level_return :
  emitLLVM 1 (mkProgram tt [mkNode (OtherKind 0) "return;"
                              [mkNode ReturnStatement "return;" []; eof]])
  = Thrown (VerifierError "a block does not end in its only terminator").
Proof. reflexivity. Qed.

(** With no frame left for the calls the emitters make, the generator
    throws. *)
Example emitLLVM_exhausted_stack : emitLLVM 1 mixed = Thrown RangeError.
Proof. reflexivity. Qed.

Lemma emitLLVM_entry_function_witness :
  emitLLVM 1 twoUnits
  = Returned (entryOnly [Instruction "let a = 1;" VoidTy [];
                         Instruction "let b = 2;" VoidTy [];
                         successReturn]).
Proof.
  destruct (emitLLVM_entry_function 1 twoUnits) as (_ & _ & _ & _ & _ & _ & H).
  apply (H sampleCode 0).
  - reflexivity.
  - exact sample_emitsStraightLine.
  - reflexivity.
  - reflexivity.
Defined.

Lemma emitLLVM_returns_verified_modules_witness :
  verifyModule (entryOnly [Instruction "let a = 1;" VoidTy [];
                           Instruction "let b = 2;" VoidTy [];
                           successReturn]) = None.
Proof.
  apply (proj1 (emitLLVM_returns_verified_modules 1 twoUnits)).
  reflexivity.
Defined.

(** C2, as the specification has it, fails: the address of a reference-typed
    location is loaded when the value is an alloca instruction. The storage
    of a [Point] is such an address. *)
Lemma createLoadIf_loads_reference_typed_alloca :
  ~ (forall (value : Value) (s : GeneratorState),
       isReferenceTypedAddress value = true ->
       createLoadIfAllocaOrPointerToValueType value s = Returned (value, s)).
Proof.
  intros Hclaim.
  specialize (Hclaim (AllocaInst (StructTy "Point") "p")
                     (entryState twoUnits) eq_refl).
  discriminate Hclaim.
Qed.

Example createLoadIf_alloca_of_reference :
  createLoadIfAllocaOrPointerToValueType
    (AllocaInst (PointerTy (StructTy "Point")) "p")
    (positionedAt (mkBlockRef 0 0) (entryState twoUnits))
  = Returned
      (LoadInst (AllocaInst (PointerTy (StructTy "Point")) "p"),
       mkState tt
         (entryOnly [LoadInst (AllocaInst (PointerTy (StructTy "Point")) "p")])
         (mkIRBuilder (Some (mkBlockRef 0 0))) tt []).
Proof. reflexivity. Qed.

Lemma createLoadIf_loads_allocas_and_value_pointers_witness :
  createLoadIfAllocaOrPointerToValueType
    (Argument (PointerTy (StructTy "Point")) 0) (entryState twoUnits)
  = Returned (Argument (PointerTy (StructTy "Point")) 0, entryState twoUnits)
  /\ createLoadIfAllocaOrPointerToValueType
       (Argument (PointerTy DoubleTy) 0) (entryState twoUnits)
     = Returned (LoadInst (Argument (PointerTy DoubleTy) 0),
                 withInstruction (LoadInst (Argument (PointerTy DoubleTy) 0))
                                 (entryState twoUnits)).
Proof.
  split.
  - apply (createLoadIf_loads_allocas_and_value_pointers
             (Argument (PointerTy (StructTy "Point")) 0) (entryState twoUnits));
      reflexivity.
  - apply (createLoadIf_loads_allocas_and_value_pointers
             (Argument (PointerTy DoubleTy) 0) (entryState twoUnits)).
    right. reflexivity.
Defined.

(** C4, as the specification has it, fails: an expression of a kind that
    [emitExpression] has no emitter for does not return; the fatal diagnostic
    ends the compilation attempt. *)
Lemma unhandled_expression_aborts :
  ~ (forall (this : LLVMGenerator) (expression : Node) (s : GeneratorState),
       isExpressionKind (kind expression) = false ->
       exists r, emitExpression this expression s = Returned r).
Proof.
  intros Hclaim.
  destruct (Hclaim (newLLVMGenerator 1) (mkNode (OtherKind 2) "a ? b : c" [])
                   (entryState twoUnits) eq_refl) as [r Hr].
  discriminate Hr.
Qed.

Lemma unhandled_node_is_noticed_unhandled_expression_is_fatal_witness :
  emitNode (newLLVMGenerator 1) (mkNode (OtherKind 1) "for (;;) {}" [])
           (globalScope newSymbolTable)
           (entryState mixed)
  = Returned (tt, noticed "Unhandled ts.Node 'Unknown': for (;;) {}"
                          (entryState mixed))
  /\ emitExpression (newLLVMGenerator 1) (mkNode (OtherKind 2) "a ? b : c" [])
                    (entryState mixed)
     = Thrown (FatalError "Unhandled ts.Expression 'Unknown'").
Proof.
  split.
  - apply (unhandled_node_is_noticed_unhandled_expression_is_fatal
             (newLLVMGenerator 1) (mkNode (OtherKind 1) "for (;;) {}" [])
             (globalScope newSymbolTable) (entryState mixed)); reflexivity.
  - apply (unhandled_node_is_noticed_unhandled_expression_is_fatal
             (newLLVMGenerator 1) (mkNode (OtherKind 2) "a ? b : c" [])
             (globalScope newSymbolTable)
             (entryState mixed)).
    reflexivity.
Defined.

Lemma emitNode_repositions_top_level_statements_witness :
  emitNode (newLLVMGenerator 1) (mkNode VariableStatement "let b = 2;" [])
           (globalScope newSymbolTable)
           (entryState twoUnits)
  = statementEmitter (newLLVMGenerator 1)
                     (mkNode VariableStatement "let b = 2;" [])
           (globalScope newSymbolTable)
                     (positionedAt (mkBlockRef 0 0) (entryState twoUnits)).
Proof.
  apply (proj1 (emitNode_repositions_top_level_statements
                  (newLLVMGenerator 1) (mkNode VariableStatement "let b = 2;" [])
                  (entryState twoUnits) eq_refl) 0 (mkBlockRef 0 0));
    reflexivity.
Defined.

Lemma emitNode_skips_eof_and_interfaces_silently_witness :
  emitNode (newLLVMGenerator 1) eof (globalScope newSymbolTable)
           (entryState twoUnits)
  = Returned (tt, entryState twoUnits).
Proof.
  apply (emitNode_skips_eof_and_interfaces_silently
           (newLLVMGenerator 1) eof (globalScope newSymbolTable)
           (entryState twoUnits)).
  left. reflexivity.
Defined.

End Concrete.

(** * Further properties *)

(** ** replaceExtension, continued *)

Section ReplaceExtensionMore.
Import JsString Utils.

(** An extension that [replaceExtension] has put in place is the one a
    second call takes off: replacing twice is replacing once, with the last
    extension. *)
Theorem replaceExtension_twice (path sfx extension : string) :
  sfx <> EmptyString ->
  string_forallb isExtensionChar sfx = true ->
  replaceExtension (replaceExtension path (String "." sfx)) extension
  = replaceExtension path extension.
Proof.
  intros Hne Hall. unfold replaceExtension.
  now rewrite replace_extension_suffix.
Qed.

Lemma replaceExtension_twice_witness :
  replaceExtension (replaceExtension "src/main.ts" (String "." "ll")) ".o"
  = replaceExtension "src/main.ts" ".o".
Proof.
  apply (replaceExtension_twice "src/main.ts" "ll" ".o").
  - discriminate.
  - reflexivity.
Defined.

Lemma replace_extension_trailing_dot path :
  replace extensionPattern EmptyString (path +:+ ".") = path +:+ ".".
Proof.
  induction path as [|c path IH]; [reflexivity|].
  change (String c path +:+ ".") with (String c (path +:+ String "." EmptyString)).
  rewrite replace_extension_cons, isDotSuffix_before_dot.
  now rewrite IH.
Qed.

(** A dot at the very end of a path is no extension: the path is kept whole,
    dot included, and the extension is appended after it. *)
Theorem replaceExtension_keeps_trailing_dot (path extension : string) :
  replaceExtension (path +:+ ".") extension = path +:+ "." +:+ extension.
Proof.
  unfold replaceExtension. rewrite replace_extension_trailing_dot.
  apply string_app_assoc.
Qed.

End ReplaceExtensionMore.

(** ** getMemberIndex, continued *)

Section MemberIndexMore.
Import LLVM TS Diagnostics Utils.
Local Open Scope Z_scope.

Lemma findIndex_first {A} (p : A -> bool) l n x :
  l !! n = Some x -> p x = true ->
  (forall j y, (j < n)%nat -> l !! j = Some y -> p y = false) ->
  findIndex p l = Z.of_nat n.
Proof.
  revert n. induction l as [|a l IH]; intros n Hx Hp Hfirst; [discriminate|].
  destruct n as [|n].
  - injection Hx as ->. now apply findIndex_cons_true.
  - rewrite findIndex_cons_false by (apply (Hfirst 0%nat); [lia | reflexivity]).
    rewrite (IH n); [| assumption | assumption |].
    + destruct (Z.ltb_spec (Z.of_nat n) 0); lia.
    + intros j y Hj Hy. apply (Hfirst (S j)); [lia | assumption].
Qed.

Lemma getMemberIndex_Returned name declaration i :
  getMemberIndex name declaration = Returned i ->
  0 <= i /\ members declaration !! Z.to_nat i = Some (PropertyMember name).
Proof.
  unfold getMemberIndex.
  destruct (Z.ltb_spec (findIndex (isFieldNamed name) (members declaration)) 0)
    as [Hlt|Hge]; [destruct (className declaration); discriminate|].
  intros [= <-]. split; [assumption|].
  destruct (findIndex_found _ _ Hge) as (x & Hx & Hp & _).
  apply isFieldNamed_true in Hp. now subst x.
Qed.

(** Looking a field up by the name of a property declaration gives back the
    place of that declaration in the class body, provided no earlier
    property declaration has the same name. *)
Theorem getMemberIndex_of_declared_field
  (name : string) (declaration : ClassDeclarationNode) (n : nat) :
  members declaration !! n = Some (PropertyMember name) ->
  (forall j, (j < n)%nat ->
             members declaration !! j <> Some (PropertyMember name)) ->
  getMemberIndex name declaration = Returned (Z.of_nat n).
Proof.
  intros Hn Hfirst. unfold getMemberIndex.
  rewrite (findIndex_first (isFieldNamed name) (members declaration) n
             (PropertyMember name)).
  - destruct (Z.ltb_spec (Z.of_nat n) 0); [lia | reflexivity].
  - assumption.
  - now apply isFieldNamed_true.
  - intros j y Hj Hy. destruct (isFieldNamed name y) eqn:E; [|reflexivity].
    apply isFieldNamed_true in E. subst y. now destruct (Hfirst j Hj).
Qed.

Lemma getMemberIndex_of_declared_field_witness :
  getMemberIndex "y" (mkClassDeclaration (Some "Point")
                        [PropertyMember "x"; MethodMember "y"; PropertyMember "y"])
  = Returned 2.
Proof.
  apply (getMemberIndex_of_declared_field "y"
           (mkClassDeclaration (Some "Point")
              [PropertyMember "x"; MethodMember "y"; PropertyMember "y"]) 2).
  - reflexivity.
  - intros [|[|j]] Hj; simpl; [discriminate | discriminate | lia].
Defined.

(** An index that [getMemberIndex] returns lies within the class body, and
    two different field names never get the same index. *)
Theorem getMemberIndex_injective
  (name1 name2 : string) (declaration : ClassDeclarationNode) (i : Z) :
  getMemberIndex name1 declaration = Returned i ->
  (0 <= i < Z.of_nat (length (members declaration)))
  /\ (getMemberIndex name2 declaration = Returned i -> name1 = name2).
Proof.
  intros [Hpos H1]%getMemberIndex_Returned. split.
  - apply lookup_lt_Some in H1. lia.
  - intros [_ H2]%getMemberIndex_Returned. congruence.
Qed.

Lemma getMemberIndex_injective_witness :
  0 <= 1 < Z.of_nat (length [PropertyMember "x"; PropertyMember "y"]).
Proof.
  apply (getMemberIndex_injective "y" "y"
           (mkClassDeclaration (Some "Point")
              [PropertyMember "x"; PropertyMember "y"]) 1).
  reflexivity.
Defined.

End MemberIndexMore.

(** ** createLLVMFunction *)

Section CreateFunction.
Import LLVM TS Diagnostics Utils.

Lemma getFunction_app_new other fn m :
  getFunction other (mkModule (moduleName m) (functions m ++ [fn])) =
  match getFunction other m with
  | Some f => Some f
  | None => if decide (functionName fn = other)
            then Some (length (functions m)) else None
  end.
Proof.
  unfold getFunction. cbn [functions].
  destruct (list_find (fun f => functionName f = other) (functions m))
    as [[i x]|] eqn:E.
  - now rewrite (list_find_app_l _ _ _ _ _ E).
  - rewrite (list_find_app_r _ _ _ E). cbn.
    destruct (decide (functionName fn = other)); reflexivity.
Qed.

(** [createLLVMFunction] adds one function to the module and changes nothing
    else: the new function comes last, is not variadic, has external linkage
    and no block yet, so nothing can be emitted into it before a block is
    created; the functions that were there keep their handles. When the name
    was free, the new function has it, looking the name up finds the new
    function, and every other name finds what it found before. *)
Theorem createLLVMFunction_adds_one_function
  (returnType : LType) (parameterTypes : list LType) (name : string)
  (m : Module) :
  let f := fst (createLLVMFunction returnType parameterTypes name m) in
  let m' := snd (createLLVMFunction returnType parameterTypes name m) in
  f = length (functions m)
  /\ (exists fn,
        functions m' !! f = Some fn
        /\ functionType fn = FunctionTy returnType parameterTypes false
        /\ linkage fn = ExternalLinkage
        /\ getBasicBlocks fn = []
        /\ (getFunction name m = None -> functionName fn = name))
  /\ length (functions m') = S (length (functions m))
  /\ moduleName m' = moduleName m
  /\ (forall g fn, functions m !! g = Some fn -> functions m' !! g = Some fn)
  /\ lastBlock f m' = None
  /\ (getFunction name m = None ->
      getFunction name m' = Some f
      /\ forall other, other <> name ->
           getFunction other m' = getFunction other m).
Proof.
  cbn zeta. unfold createLLVMFunction, Function_create. cbn [fst snd].
  split; [reflexivity|].
  split.
  { eexists. split;
      [cbn [functions]; now rewrite lookup_app_r, Nat.sub_diag by lia|].
    repeat split. }
  split; [cbn [functions]; rewrite length_app; cbn; lia|].
  split; [reflexivity|].
  split; [intros g fn Hg; cbn [functions]; now apply lookup_app_l_Some|].
  split.
  { unfold lastBlock, blocksOf. cbn [functions].
    now rewrite lookup_app_r, Nat.sub_diag by lia. }
  intros Hfree. split.
  - rewrite getFunction_app_new, Hfree. cbn [functionName].
    now rewrite decide_True by reflexivity.
  - intros other Hne. rewrite getFunction_app_new. cbn [functionName].
    destruct (getFunction other m); [reflexivity|].
    now rewrite decide_False by congruence.
Qed.

Lemma createLLVMFunction_adds_one_function_witness :
  getFunction "f"
    (snd (createLLVMFunction DoubleTy [DoubleTy; DoubleTy] "f"
            (mkModule "main" [mkFunction "main" (FunctionTy (IntegerTy 32) [] false)
                                         ExternalLinkage []])))
  = Some 1.
Proof.
  destruct (createLLVMFunction_adds_one_function DoubleTy [DoubleTy; DoubleTy] "f"
              (mkModule "main" [mkFunction "main" (FunctionTy (IntegerTy 32) [] false)
                                           ExternalLinkage []]))
    as (_ & _ & _ & _ & _ & _ & Hfree).
  apply Hfree. reflexivity.
Defined.

End CreateFunction.

(** ** The generator, continued *)

Section GeneratorMore.
Import LLVM TS Diagnostics Utils Codegen CodegenMore.
Context `{Host} `{!Emitters}.
Local Open Scope gen_scope.

(** *** emitNode and emitExpression *)

(** Only a statement whose parent scope is the global scope has the
    insertion point moved: a node of any other kind, and a statement in any
    other scope, is handed to its emitter with the generator as it is. A
    statement inside a function body therefore stays where the builder is. *)
Theorem emitNode_moves_the_cursor_for_nothing_else
  this node parentScope (s : GeneratorState) :
  isStatementKind (kind node) = false
  \/ parentScope <> globalScope (symbolTable s) ->
  emitNode this node parentScope s = dispatch this node parentScope s.
Proof.
  intros Hcase. unfold emitNode, dispatch, unhandledNodeNotice, bind, getState.
  destruct (kind node); cbn [isStatementKind] in Hcase;
    solve [ reflexivity
          | destruct Hcase as [Hk | Hs]; [discriminate Hk|];
            rewrite decide_False by assumption; reflexivity ].
Qed.

(** No kind has an emitter in both dispatchers: a node of a kind that
    [emitExpression] evaluates is only noticed by [emitNode], and a node of a
    kind that [emitNode] emits or skips is a fatal error for
    [emitExpression]. *)
Theorem dispatchers_are_disjoint this node parentScope (s : GeneratorState) :
  (isExpressionKind (kind node) = true ->
   emitNode this node parentScope s
   = Returned (tt, noticed (unhandledNodeNotice node) s))
  /\ (isEmittedKind (kind node) = true \/ isSilentKind (kind node) = true ->
      emitExpression this node s
      = Thrown (FatalError (unhandledExpressionMessage node))).
Proof.
  split.
  - intros Hk. apply emitNode_unhandled;
      destruct (kind node); solve [reflexivity | discriminate].
  - intros Hk. apply emitExpression_unhandled.
    destruct (kind node); try reflexivity; destruct Hk; discriminate.
Qed.

(** *** Units without anything to emit *)

Lemma withNotices_nil (s : GeneratorState) : withNotices [] s = s.
Proof. destruct s. unfold withNotices. cbn. now rewrite app_nil_r. Qed.

Lemma withNotices_noticed message messages (s : GeneratorState) :
  withNotices messages (noticed message s) = withNotices (message :: messages) s.
Proof.
  unfold withNotices, noticed. cbn. now rewrite <- app_assoc.
Qed.

Lemma forEach_nothing_to_emit d nodes (s : GeneratorState) :
  forallb (fun node => negb (isEmittedKind (kind node))) nodes = true ->
  forEach (emitTopLevel (S d)) nodes s
  = Returned (tt, withNotices (noticesOf nodes) s).
Proof.
  revert s. induction nodes as [|node nodes IH]; intros s Hall.
  - cbn. now rewrite withNotices_nil.
  - cbn [forallb] in Hall. apply andb_prop in Hall as [Hk Hall].
    apply negb_true_iff in Hk.
    cbn [forEach]. unfold bind. rewrite emitTopLevel_run. unfold noticesOf.
    destruct (isSilentKind (kind node)) eqn:Hs.
    + rewrite emitNode_silent by assumption.
      rewrite filter_cons_False by congruence. now apply IH.
    + rewrite emitNode_unhandled by assumption.
      rewrite filter_cons_True by assumption. cbn [map].
      rewrite IH by assumption. now rewrite withNotices_noticed.
Qed.

(** A source file none of whose children has an emitter leaves the module,
    the builder and the symbol table as they were; what it adds is one notice
    for each child that is not an end-of-file token or an interface, in
    source order. *)
Theorem emitSourceFile_nothing_to_emit
  (d : nat) (sourceFile : SourceFile) (s : GeneratorState) :
  forallb (fun node => negb (isEmittedKind (kind node))) (children sourceFile)
  = true ->
  emitSourceFile (newLLVMGenerator (S d)) sourceFile s
  = Returned (tt, mkState (checker s) (module s) (builder s) (symbolTable s)
                          (notices s ++ noticesOf (children sourceFile))).
Proof.
  intros Hall.
  change (emitSourceFile (newLLVMGenerator (S d)) sourceFile s)
    with (forEach (emitTopLevel (S d)) (children sourceFile) s).
  now rewrite forEach_nothing_to_emit.
Qed.

(** A program none of whose top-level nodes has an emitter compiles to the
    entry function alone, its block holding the return of zero and nothing
    else, whatever the notices; a program without top-level nodes does so at
    any depth of the call stack. *)
Theorem emitLLVM_nothing_to_emit (depth : nat) (program : Program) :
  (exists d, depth = S d) \/ topLevelNodes program = [] ->
  forallb (fun node => negb (isEmittedKind (kind node))) (topLevelNodes program)
  = true ->
  emitLLVM depth program
  = match verifyModule (entryOnly [successReturn]) with
    | Some report => Thrown (VerifierError report)
    | None => Returned (entryOnly [successReturn])
    end.
Proof.
  intros Hdepth Hall. rewrite emitLLVM_unfold.
  assert (forEach (emitTopLevel depth) (topLevelNodes program) (entryState program)
          = Returned (tt, withNotices (noticesOf (topLevelNodes program))
                                      (entryState program))) as ->.
  { destruct Hdepth as [[d ->] | Hnil].
    - now apply forEach_nothing_to_emit.
    - rewrite Hnil. cbn. now rewrite withNotices_nil. }
  reflexivity.
Qed.

(** *** Failures *)

(** The first top-level node whose emission throws ends the compilation with
    that failure: the nodes after it are not emitted, the final return is not
    appended, and no module is returned. *)
Theorem emitLLVM_stops_at_first_failure
  (depth : nat) (program : Program) before node after
  (s1 : GeneratorState) (e : Failure) :
  topLevelNodes program = before ++ node :: after ->
  forEach (emitTopLevel depth) before (entryState program) = Returned (tt, s1) ->
  emitTopLevel depth node s1 = Thrown e ->
  emitLLVM depth program = Thrown e.
Proof.
  intros Htop Hbefore Hnode.
  rewrite emitLLVM_unfold, Htop, forEach_app, Hbefore.
  cbn [forEach]. unfold bind. now rewrite Hnode.
Qed.

(** *** createLoadIfAllocaOrPointerToValueType, continued *)

Lemma createLoadIf_cases value (s : GeneratorState) :
  createLoadIfAllocaOrPointerToValueType value s =
  if instanceofAllocaInst value || isValueTypedAddress value
  then Returned (LoadInst value, withInstruction (LoadInst value) s)
  else Returned (value, s).
Proof.
  unfold createLoadIfAllocaOrPointerToValueType, isValueTypedAddress.
  assert (isPointerTy (valueType value)
          && from_option isValueType false (elementType (valueType value))
          = match valueType value with
            | PointerTy t => isValueType t
            | _ => false
            end) as ->
    by (destruct (valueType value); reflexivity).
  destruct (instanceofAllocaInst value || _); [apply createLoad_run | reflexivity].
Qed.

Lemma isValueTypedAddress_pointer t :
  match t with PointerTy t' => isValueType t' | _ => false end = true ->
  t = PointerTy DoubleTy.
Proof.
  destruct t as [| | | |t'| | |]; try discriminate.
  destruct t'; try discriminate. reflexivity.
Qed.

Lemma isValueTypedAddress_load (v : Value) :
  isValueTypedAddress (LoadInst v) = true ->
  valueType v = PointerTy (PointerTy DoubleTy).
Proof.
  unfold isValueTypedAddress. cbn [valueType].
  destruct (valueType v) as [| | | |t| | |]; cbn; try discriminate.
  intros E%isValueTypedAddress_pointer. now subst t.
Qed.

(** Applying the rule to its own result changes nothing more, with one
    exception: an alloca that holds a pointer to a value type is loaded, and
    what was loaded is then loaded again. *)
Theorem createLoadIf_twice (value : Value) (s : GeneratorState) :
  ((forall name, value <> AllocaInst (PointerTy DoubleTy) name) ->
   (let* v := createLoadIfAllocaOrPointerToValueType value in
    createLoadIfAllocaOrPointerToValueType v) s
   = createLoadIfAllocaOrPointerToValueType value s)
  /\ (forall name, value = AllocaInst (PointerTy DoubleTy) name ->
      (let* v := createLoadIfAllocaOrPointerToValueType value in
       createLoadIfAllocaOrPointerToValueType v) s
      = Returned (LoadInst (LoadInst value),
                  withInstruction (LoadInst (LoadInst value))
                                  (withInstruction (LoadInst value) s))).
Proof.
  split.
  - intros Hnot. unfold bind. rewrite (createLoadIf_cases value s).
    destruct (instanceofAllocaInst value || isValueTypedAddress value) eqn:E.
    + rewrite createLoadIf_cases.
      assert (isValueTypedAddress (LoadInst value) = false) as ->;
        [|reflexivity].
      destruct (isValueTypedAddress (LoadInst value)) eqn:EL; [exfalso|reflexivity].
      apply isValueTypedAddress_load in EL.
      apply orb_prop in E as [Ea|Ev].
      * destruct value; try discriminate Ea. cbn in EL.
        injection EL as ->. now eapply Hnot.
      * unfold isValueTypedAddress in Ev. rewrite EL in Ev. discriminate Ev.
    + rewrite createLoadIf_cases, E. reflexivity.
  - intros name ->. reflexivity.
Qed.

(** The rule never fails and never moves the insertion point; it leaves the
    symbol table and the notices alone, and the only block that can change
    is the one the builder is positioned in. *)
Theorem createLoadIf_frame (value : Value) (s : GeneratorState) :
  exists r s',
    createLoadIfAllocaOrPointerToValueType value s = Returned (r, s')
    /\ builder s' = builder s
    /\ symbolTable s' = symbolTable s
    /\ notices s' = notices s
    /\ checker s' = checker s
    /\ (forall b, getInsertBlock (builder s) <> Some b ->
                  instructionsAt b (module s') = instructionsAt b (module s)).
Proof.
  rewrite createLoadIf_cases.
  destruct (instanceofAllocaInst value || isValueTypedAddress value).
  - eexists _, _. split; [reflexivity|]. repeat split.
    intros b Hb. cbn [withInstruction module]. unfold insert.
    destruct (getInsertBlock (builder s)) as [blk|]; [|reflexivity].
    apply instructionsAt_insertAtEnd_other_block. congruence.
  - eexists _, _. split; [reflexivity|]. repeat split.
Qed.

(** What the rule makes of the address of a value-typed location is a value
    of value type, on which the rule has no further effect. *)
Theorem createLoadIf_yields_a_value (value : Value) (s : GeneratorState) :
  isValueTypedAddress value = true ->
  createLoadIfAllocaOrPointerToValueType value s
  = Returned (LoadInst value, withInstruction (LoadInst value) s)
  /\ isValueType (valueType (LoadInst value)) = true
  /\ forall s', createLoadIfAllocaOrPointerToValueType (LoadInst value) s'
                = Returned (LoadInst value, s').
Proof.
  intros Hv. pose proof Hv as Hp. unfold isValueTypedAddress in Hp.
  apply isValueTypedAddress_pointer in Hp.
  split; [|split].
  - rewrite createLoadIf_cases, Hv. now rewrite orb_true_r.
  - cbn [valueType]. now rewrite Hp.
  - intros s'. rewrite createLoadIf_cases.
    unfold isValueTypedAddress. cbn [valueType instanceofAllocaInst orb].
    now rewrite Hp.
Qed.

End GeneratorMore.

(** ** The further properties at work *)

Section ConcreteMore.
Import LLVM TS Diagnostics Utils Codegen CodegenMore Sample.

(** A statement in the body of a function stays in that function: scope 1
    is not the global scope. *)
Lemma emitNode_moves_the_cursor_for_nothing_else_witness :
  emitNode (newLLVMGenerator 1) (mkNode ExpressionStatement "g();" [])
           (1 : @Scope host)
           (positionedAt (mkBlockRef 1 0) (entryState mixed))
  = dispatch (newLLVMGenerator 1) (mkNode ExpressionStatement "g();" [])
           (1 : @Scope host)
             (positionedAt (mkBlockRef 1 0) (entryState mixed)).
Proof.
  apply (emitNode_moves_the_cursor_for_nothing_else
           (newLLVMGenerator 1) (mkNode ExpressionStatement "g();" [])
           (1 : @Scope host)
           (positionedAt (mkBlockRef 1 0) (entryState mixed))).
  right. discriminate.
Defined.

Lemma dispatchers_are_disjoint_witness :
  emitNode (newLLVMGenerator 1) (mkNode Identifier "x" [])
           (globalScope newSymbolTable) (entryState twoUnits)
  = Returned (tt, noticed "Unhandled ts.Node 'Identifier': x" (entryState twoUnits))
  /\ emitExpression (newLLVMGenerator 1) (mkNode Block "{}" []) (entryState twoUnits)
     = Thrown (FatalError "Unhandled ts.Expression 'Block'").
Proof.
  split.
  - apply (dispatchers_are_disjoint (newLLVMGenerator 1) (mkNode Identifier "x" [])
             (globalScope newSymbolTable) (entryState twoUnits)).
    reflexivity.
  - apply (dispatchers_are_disjoint (newLLVMGenerator 1) (mkNode Block "{}" [])
             (globalScope newSymbolTable) (entryState twoUnits)).
    left. reflexivity.
Defined.

Lemma emitSourceFile_nothing_to_emit_witness :
  emitSourceFile (newLLVMGenerator 1) Evaluating.unitE
                 (entryState Evaluating.nothingToEmit)
  = Returned (tt, mkState tt (entryOnly []) (mkIRBuilder None) tt
                    ["Unhandled ts.Node 'Unknown': for (;;) {}";
                     "Unhandled ts.Node 'Unknown': while (x) {}"]).
Proof.
  apply (emitSourceFile_nothing_to_emit 0 Evaluating.unitE
           (entryState Evaluating.nothingToEmit)).
  reflexivity.
Defined.

Lemma emitLLVM_nothing_to_emit_witness :
  emitLLVM 1 Evaluating.nothingToEmit = Returned (entryOnly [successReturn]).
Proof.
  apply (emitLLVM_nothing_to_emit 1 Evaluating.nothingToEmit).
  - left. now exists 0.
  - reflexivity.
Defined.

(** An expression statement over a conditional: the statement before it is
    emitted, the conditional is fatal, and nothing is returned. *)
Lemma emitLLVM_stops_at_first_failure_witness :
  @emitLLVM host Evaluating.emitters 2 Evaluating.withConditional
  = Thrown (FatalError "Unhandled ts.Expression 'Unknown'").
Proof.
  eapply (@emitLLVM_stops_at_first_failure host Evaluating.emitters 2
            Evaluating.withConditional
            [mkNode VariableStatement "let a = 1;" []]
            Evaluating.conditionalStatement
            [mkNode VariableStatement "let b = 2;" []; eof]).
  - reflexivity.
  - reflexivity.
  - reflexivity.
Defined.

Lemma createLoadIf_twice_witness :
  (let* v := createLoadIfAllocaOrPointerToValueType (AllocaInst DoubleTy "a") in
   createLoadIfAllocaOrPointerToValueType v)%gen (entryState twoUnits)
  = createLoadIfAllocaOrPointerToValueType (AllocaInst DoubleTy "a")
      (entryState twoUnits).
Proof.
  apply (createLoadIf_twice (AllocaInst DoubleTy "a") (entryState twoUnits)).
  intros name. discriminate.
Defined.

Lemma createLoadIf_yields_a_value_witness :
  isValueType (valueType (LoadInst (Argument (PointerTy DoubleTy) 0))) = true.
Proof.
  apply (createLoadIf_yields_a_value (Argument (PointerTy DoubleTy) 0)
           (entryState twoUnits)).
  reflexivity.
Defined.

End ConcreteMore.
